(** * Student-response report: pivot engine and report renderer

    A shallow embedding of [services/excel_service.py] (class
    [ExcelService]: [pivot_student_data] and [generate_excel]) together
    with the few pandas / openpyxl operations the two methods call, and the
    properties of the report that follow from the code; then of the layers
    around it: the data access of [database.py] and
    [services/query_service.py], the endpoints of [routes/reports.py] and
    [api/index.py], and the connection string of [config.py].

    Conventions of the embedding
    - a pandas cell is a [cell]: [NaN] stands for every null (None, NaN,
      NaT), [Num] for a number, [Str] for a string; pandas stores an
      integer column that gains a null as floats of the same value, which
      [Num] does not distinguish; a float holds an integer exactly up to
      2^53 in absolute value, and the properties that equate a numeric cell
      with a value of the input are stated for such numbers ([exact]);
    - the frame returned by [QueryService.get_student_responses] has the
      sixteen columns of its SELECT list; one row of it is a [FlatRecord];
      [QuestionID] is the integer key of the result table, every other
      column is nullable;
    - a frame with a dynamic set of columns (the result of the pivot) is a
      [DataFrame]: its column labels and its rows, each row listing its
      cells under their labels in column order;
    - the workbook built by [generate_excel] is kept as a value ([Workbook]);
      its serialisation into the byte buffer is openpyxl's business; a
      string is the sequence of its characters, and the failures of
      [to_excel] and of openpyxl's cells (sheet limits, characters a sheet
      cannot hold) are outcomes of [generate_excel];
    - [datetime.strftime] prints [%Y] as the C library does, without
      padding; pandas' [dt.strftime] and [isoformat] print four digits;
    - the SQL Server behind [QueryService] is a [Backend]: what
      [cursor.execute] and [pd.read_sql_query] give for a query text and its
      parameters, a value or a raised exception ([result]); an endpoint
      returns its body or raises, and the clock is an argument. *)

From Stdlib Require Import ZArith Decimal DecimalString DecimalNat DecimalZ
  Ascii.
From stdpp Require Import base list strings gmap sorting.

(** ** Python strings *)

(** [str(n)] / [f"{n}"] for a non-negative and for an arbitrary [int]. *)
Definition str_nat (n : nat) : string :=
  NilEmpty.string_of_uint (Nat.to_uint n).

Definition str_int (z : Z) : string :=
  NilEmpty.string_of_int (Z.to_int z).

(** [s.endswith(suffix)]: [suffix], read backwards, starts [s] read
    backwards. *)
Definition endswith (s suffix : string) : bool :=
  String.prefix (String.rev suffix) (String.rev s).

(** [s.zfill(width)] on digit strings. *)
Definition zfill (width : nat) (s : string) : string :=
  String.concat "" (replicate (width - String.length s) "0") +:+ s.

(** ** pandas values *)

Inductive cell : Type :=
  | NaN
  | Num (z : Z)
  | Str (s : string).

Global Instance cell_eq_dec : EqDecision cell.
Proof. solve_decision. Defined.

Global Instance cell_countable : Countable cell.
Proof.
  refine (inj_countable'
    (λ c, match c with
          | NaN => inl ()
          | Num z => inr (inl z)
          | Str s => inr (inr s)
          end)
    (λ x, match x with
          | inl _ => NaN
          | inr (inl z) => Num z
          | inr (inr s) => Str s
          end) _).
  by intros [].
Defined.

Definition isna (c : cell) : bool :=
  match c with NaN => true | _ => false end.

Definition notna (c : cell) : bool := negb (isna c).

(** [Series.fillna(value)] on one cell. *)
Definition fillna (value c : cell) : cell :=
  if isna c then value else c.

(** A [datetime64] value; [to_datetime(...).dt.strftime('%Y-%m-%d')] keeps
    the calendar date only. *)
Record Timestamp : Type := mkTimestamp {
  year : nat; month : nat; day : nat;
  hour : nat; minute : nat; second : nat
}.

Definition strftime_Ymd (t : Timestamp) : string :=
  zfill 4 (str_nat (year t)) +:+ "-" +:+ zfill 2 (str_nat (month t))
    +:+ "-" +:+ zfill 2 (str_nat (day t)).

(** [date.strftime('%Y-%m-%d')] and [datetime.strftime]: the year is what
    the C library prints for [%Y], the number without padding. *)
Definition date_strftime_Ymd (t : Timestamp) : string :=
  str_nat (year t) +:+ "-" +:+ zfill 2 (str_nat (month t))
    +:+ "-" +:+ zfill 2 (str_nat (day t)).

(** NaT formats to NaN. *)
Definition format_date (d : option Timestamp) : cell :=
  match d with
  | Some t => Str (strftime_Ymd t)
  | None => NaN
  end.

(** ** Frames *)

(** One row of a frame: its cells under their column labels. *)
Abbreviation Row := (list (string * cell)).

Record DataFrame : Type := mkDataFrame {
  columns : list string;
  rows : list Row
}.

(** [pd.DataFrame()] *)
Definition empty_frame : DataFrame := mkDataFrame [] [].

(** [df.empty]: no row or no column. *)
Definition is_empty (df : DataFrame) : bool :=
  match rows df, columns df with
  | [], _ | _, [] => true
  | _, _ => false
  end.

(** The cell of a row under a label (first entry with that label). *)
Fixpoint row_get (c : string) (r : Row) : option cell :=
  match r with
  | [] => None
  | (c', v) :: r' => if decide (c = c') then Some v else row_get c r'
  end.

(** [df[c]] as a list of cells; a label missing from a row reads as null. *)
Definition series (c : string) (df : DataFrame) : list cell :=
  (λ r, default NaN (row_get c r)) <$> rows df.

(** [drop_duplicates(subset=[key])], [keep='first']: the first row of each
    key value survives, in order of appearance; nulls compare equal. *)
Fixpoint drop_duplicates {A K : Type} `{EqDecision K}
    (key : A → K) (l : list A) : list A :=
  match l with
  | [] => []
  | x :: l' => x :: filter (λ y, key y ≠ key x) (drop_duplicates key l')
  end.

(** [Series.unique()]: the distinct values in order of appearance. *)
Definition unique {K : Type} `{EqDecision K} (l : list K) : list K :=
  drop_duplicates id l.

(** [Series.nunique()]: the number of distinct non-null values. *)
Definition nunique (l : list cell) : nat :=
  length (unique (filter (λ c, notna c = true) l)).

(** [enumerate(l, start)] *)
Fixpoint enumerate {A : Type} (start : nat) (l : list A) : list (nat * A) :=
  match l with
  | [] => []
  | x :: l' => (start, x) :: enumerate (S start) l'
  end.

(** The aggregation ['first'] of a group: its first non-null value, null
    when it has none. *)
Definition first (s : list cell) : cell :=
  default NaN (head (filter (λ c, notna c = true) s)).

(** [left.merge(right, on=key, how='left')] for frames that share no label
    but [key]: every left row, in the left order, once for each right row
    with the same key (null keys match each other), or once with nulls
    under the right labels when there is none. *)
Definition merge_left (key : string) (left right : DataFrame) : DataFrame :=
  let right_cols := filter (λ c, c ≠ key) (columns right) in
  mkDataFrame (columns left ++ right_cols)
    (lrow ← rows left;
     match filter (λ rrow, row_get key rrow = row_get key lrow) (rows right) with
     | [] => [lrow ++ ((λ c, (c, NaN)) <$> right_cols)]
     | matches =>
         (λ rrow, lrow ++ filter (λ p, p.1 ≠ key) rrow) <$> matches
     end).

(** [df[cols]] for labels that are all columns of [df]. *)
Definition select (cols : list string) (df : DataFrame) : DataFrame :=
  mkDataFrame cols
    ((λ r, (λ c, (c, default NaN (row_get c r))) <$> cols) <$> rows df).

(** [df[col] = f(df[col])]: rewrite one column, cell by cell. *)
Definition assign (col : string) (f : cell → cell) (df : DataFrame)
    : DataFrame :=
  mkDataFrame (columns df)
    ((λ r : Row,
        (λ p, if decide (p.1 = col) then (p.1, f p.2) else p) <$> r)
       <$> rows df).

(** ** The flat result set *)

(** One row of the frame returned by [get_student_responses]: one student's
    answer to one question. *)
Record FlatRecord : Type := mkFlatRecord {
  TestDate : option Timestamp;
  SchoolId : cell;
  SchoolName : cell;
  StudentId : cell;
  FirstName : cell;
  LastName : cell;
  Gender : cell;
  Grade : cell;
  Region : cell;
  QuestionID : Z;
  QuestionType : cell;
  Subject : cell;
  Level : cell;
  StudentAnswer : cell;
  CorrectAnswer : cell;
  Score : cell
}.

(** A string of spaces only, the empty string included. *)
Fixpoint blank (s : string) : bool :=
  match s with
  | EmptyString => true
  | String c s' => bool_decide (c = Ascii.Space) && blank s'
  end.

(** The [StudentAnswer] column of the query:
    [CASE WHEN tr.UserAnswer IS NULL OR tr.UserAnswer = '' THEN
    'Not Answered' ELSE tr.UserAnswer END]; SQL Server compares strings
    without their trailing spaces, so a string of spaces equals ''. *)
Definition query_student_answer (UserAnswer : option string) : cell :=
  match UserAnswer with
  | None => Str "Not Answered"
  | Some s => if blank s then Str "Not Answered" else Str s
  end.

(** ** [ExcelService.pivot_student_data] *)

Definition STUDENT_COLUMNS : list string :=
  ["TestDate"; "SchoolId"; "SchoolName"; "StudentId"; "FirstName";
   "LastName"; "Gender"; "Grade"; "Region"].

Definition QUESTION_COLUMNS : list string :=
  ["QuestionId"; "Subject"; "Level"; "Type"; "StudentAnswer";
   "CorrectAnswer"; "Score"].

(** The value columns handed to [pivot_table]: the keys of [pivot_cols]. *)
Inductive ValueCol : Type :=
  | VQuestionID | VSubject | VLevel | VQuestionType
  | VStudentAnswer | VCorrectAnswer | VScore.

Global Instance ValueCol_eq_dec : EqDecision ValueCol.
Proof. solve_decision. Defined.

(** [list(pivot_cols.keys())] *)
Definition pivot_keys : list ValueCol :=
  [VQuestionID; VSubject; VLevel; VQuestionType; VStudentAnswer;
   VCorrectAnswer; VScore].

(** The same labels in the order [sort_index(axis=1)] gives them:
    CorrectAnswer, Level, QuestionID, QuestionType, Score, StudentAnswer,
    Subject. *)
Definition pivot_keys_sorted : list ValueCol :=
  [VCorrectAnswer; VLevel; VQuestionID; VQuestionType; VScore;
   VStudentAnswer; VSubject].

(** [pivot_cols[value_name]] *)
Definition pivot_cols (v : ValueCol) : string :=
  match v with
  | VQuestionID => "QuestionId"
  | VSubject => "Subject"
  | VLevel => "Level"
  | VQuestionType => "Type"
  | VStudentAnswer => "StudentAnswer"
  | VCorrectAnswer => "CorrectAnswer"
  | VScore => "Score"
  end.

(** [df[value_name]] on one record. *)
Definition value_of (v : ValueCol) (r : FlatRecord) : cell :=
  match v with
  | VQuestionID => Num (QuestionID r)
  | VSubject => Subject r
  | VLevel => Level r
  | VQuestionType => QuestionType r
  | VStudentAnswer => StudentAnswer r
  | VCorrectAnswer => CorrectAnswer r
  | VScore => Score r
  end.

Definition student_cols : list string :=
  ["StudentId"; "FirstName"; "LastName"; "Gender"; "Grade"; "SchoolId";
   "SchoolName"; "Region"; "TestDate"].

(** One row of [df[student_cols]], its TestDate already formatted. *)
Definition student_row (r : FlatRecord) : Row :=
  [("StudentId", StudentId r); ("FirstName", FirstName r);
   ("LastName", LastName r); ("Gender", Gender r); ("Grade", Grade r);
   ("SchoolId", SchoolId r); ("SchoolName", SchoolName r);
   ("Region", Region r); ("TestDate", format_date (TestDate r))].

(** [students_df]: the student base data, one row per StudentId value. *)
Definition students_df (df : list FlatRecord) : DataFrame :=
  mkDataFrame student_cols (student_row <$> drop_duplicates StudentId df).

(** [sorted(df['QuestionID'].unique())] *)
Definition all_question_ids (df : list FlatRecord) : list Z :=
  merge_sort Z.le (unique (QuestionID <$> df)).

(** [{q_id: idx for idx, q_id in enumerate(all_question_ids, 1)}] *)
Definition q_id_to_num (df : list FlatRecord) : gmap Z nat :=
  foldl (λ m p, <[p.2 := p.1]> m) ∅ (enumerate 1 (all_question_ids df)).

(** [df['QNum'] = df['QuestionID'].map(q_id_to_num)]; [None] is a null. *)
Definition QNum (df : list FlatRecord) (r : FlatRecord) : option nat :=
  q_id_to_num df !! QuestionID r.

(** *** [df.pivot_table(index='StudentId', columns='QNum', values=...,
        aggfunc='first')]

    [groupby(['StudentId', 'QNum'])] leaves out the rows with a null key;
    each value column of a group aggregates to its first non-null value;
    groups whose values are all null are dropped; QNum is unstacked into
    the column labels [(value_name, q_num)], sorted; columns that are null
    in every row are dropped.  An unstacked column of numbers is a column
    of floats as soon as one of its groups is missing; the embedding keeps
    the numbers as they are, which is what a float does for [exact]
    numbers. *)

Definition group_key (df : list FlatRecord) (r : FlatRecord)
    : option (cell * nat) :=
  if isna (StudentId r) then None
  else (λ k, (StudentId r, k)) <$> QNum df r.

Definition group (df : list FlatRecord) (key : cell * nat)
    : list FlatRecord :=
  filter (λ r, group_key df r = Some key) df.

Definition agg (df : list FlatRecord) (key : cell * nat) (v : ValueCol)
    : cell :=
  first (value_of v <$> group df key).

(** The keys of the aggregated frame after [dropna(how='all')]. *)
Definition agged_keys (df : list FlatRecord) : list (cell * nat) :=
  filter (λ key, Exists (λ v, agg df key v ≠ NaN) pivot_keys)
    (unique (omap (group_key df) df)).

(** The row labels of the pivot table.  pandas sorts them; the left merge
    below only looks rows up by label, so they are kept as first seen. *)
Definition pivot_index (df : list FlatRecord) : list cell :=
  unique ((λ key, key.1) <$> agged_keys df).

Definition pivot_q_nums (df : list FlatRecord) : list nat :=
  merge_sort Nat.le (unique ((λ key, key.2) <$> agged_keys df)).

(** The column labels of the pivot table. *)
Definition pivot_columns (df : list FlatRecord) : list (ValueCol * nat) :=
  filter (λ col, Exists (λ sid, agg df (sid, col.2) col.1 ≠ NaN)
                   (pivot_index df))
    (v ← pivot_keys_sorted; (λ k, (v, k)) <$> pivot_q_nums df).

(** [f"Q{q_num}_{pivot_cols[value_name]}"] *)
Definition new_col_name (col : ValueCol * nat) : string :=
  "Q" +:+ str_nat col.2 +:+ "_" +:+ pivot_cols col.1.

(** [pivoted] once its columns are renamed and its index is reset. *)
Definition pivoted (df : list FlatRecord) : DataFrame :=
  mkDataFrame ("StudentId" :: (new_col_name <$> pivot_columns df))
    ((λ sid, ("StudentId", sid) ::
             ((λ col, (new_col_name col, agg df (sid, col.2) col.1))
                <$> pivot_columns df))
       <$> pivot_index df).

(** The column order of the report: student info first, then the question
    columns slot by slot, only those that exist in [result_df]. *)
Definition final_columns (result_df : DataFrame) (n : nat) : list string :=
  let final :=
    STUDENT_COLUMNS ++
    (idx ← seq 1 n;
     let prefix := "Q" +:+ str_nat idx +:+ "_" in
     filter (λ col_name, col_name ∈ columns result_df)
       ((λ col, prefix +:+ col) <$> QUESTION_COLUMNS)) in
  filter (λ c, c ∈ columns result_df) final.

(** The fill applied to column [col]. *)
Definition fill_blank (col : string) : cell → cell :=
  if endswith col "_StudentAnswer" then fillna (Str "Not Answered")
  else if endswith col "_Score" then fillna (Num 0)
  else if endswith col "_QuestionId" || endswith col "_Subject"
          || endswith col "_Level" || endswith col "_Type"
          || endswith col "_CorrectAnswer" then fillna (Str "N/A")
  else id.

(** [for col in result_df.columns: result_df[col] = ...fillna(...)] *)
Definition fill_blanks (result_df : DataFrame) : DataFrame :=
  foldl (λ df col, assign col (fill_blank col) df) result_df
    (columns result_df).

(** [pivot_student_data(df)]: one row per student, the question details
    as columns.  An empty frame pivots to [pd.DataFrame()]; otherwise the
    student base data is merged with the pivot table, the columns are put
    in report order and the blanks are filled. *)
Definition pivot_student_data (df : list FlatRecord) : DataFrame :=
  match df with
  | [] => empty_frame
  | _ =>
      let result_df := merge_left "StudentId" (students_df df) (pivoted df) in
      let final := final_columns result_df (length (all_question_ids df)) in
      fill_blanks (select final result_df)
  end.

(** ** [ExcelService.generate_excel] *)

(** The openpyxl styles the service uses. *)
Record Style : Type := mkStyle {
  bold : bool;
  font_size : option nat;
  font_color : option string;
  fill_color : option string;
  centered : bool;
  wrap_text : bool
}.

(** [Font(bold=True, size=14)] *)
Definition title_style : Style :=
  mkStyle true (Some 14) None None false false.

(** [header_font], [header_fill] and [header_alignment] of [__init__]. *)
Definition header_style : Style :=
  mkStyle true None (Some "FFFFFF") (Some "4472C4") true true.

(** A worksheet: cells and styles by (row, column), both counted from 1;
    the frozen pane; column widths by column number (openpyxl keys them
    by [get_column_letter] of that number). *)
Record Worksheet : Type := mkWorksheet {
  title : string;
  cells : gmap (nat * nat) cell;
  styles : gmap (nat * nat) Style;
  freeze_panes : option (nat * nat);
  column_widths : gmap nat nat
}.

Abbreviation Workbook := (list Worksheet).

Inductive outcome : Type :=
  | Returned (wb : Workbook)
  | Raised (error : string).

(** [ws[...] = v] for a list of cells, in order. *)
Definition write_cells {V : Type} (l : list ((nat * nat) * V))
    (m : gmap (nat * nat) V) : gmap (nat * nat) V :=
  foldl (λ m p, <[p.1 := p.2]> m) m l.

(** openpyxl's [ILLEGAL_CHARACTERS_RE],
    [[\000-\010]|[\013-\014]|[\016-\037]]: the control characters other
    than tab, line feed and carriage return. *)
Definition illegal_character (c : Ascii.ascii) : bool :=
  let n := Ascii.N_of_ascii c in
  (n <=? 8)%N || ((11 <=? n)%N && (n <=? 12)%N)
  || ((14 <=? n)%N && (n <=? 31)%N).

Fixpoint has_illegal_character (s : string) : bool :=
  match s with
  | EmptyString => false
  | String c s' => illegal_character c || has_illegal_character s'
  end.

(** [s[:n]] *)
Fixpoint str_slice (n : N) (s : string) : string :=
  match s with
  | EmptyString => EmptyString
  | String c s' =>
      if (n =? 0)%N then EmptyString else String c (str_slice (N.pred n) s')
  end.

(** [Cell.check_string]: the text is cut at 32767 characters; what is
    left is the text of the cell, unless it holds an illegal character,
    which raises [IllegalCharacterError] with the message on the right. *)
Definition check_string (s : string) : string + string :=
  let value := str_slice 32767 s in
  if has_illegal_character value
  then inr (value +:+ " cannot be used in worksheets.")
  else inl value.

(** What [to_excel] hands to the cell for a value of the frame, a null as
    the empty string ([na_rep='']), and what the cell keeps of it. *)
Definition excel_value (c : cell) : cell :=
  match c with
  | NaN => Str ""
  | Num z => Num z
  | Str s => Str (str_slice 32767 s)
  end.

(** The cells [df.to_excel(..., index=False, startrow=startrow)] writes:
    the header line, then the rows.  (pandas writes the body column by
    column; the positions are distinct, so the sheet is the same.) *)
Definition to_excel_cells (startrow : nat) (df : DataFrame)
    : list ((nat * nat) * cell) :=
  imap (λ j c, ((startrow + 1, j + 1), excel_value (Str c))) (columns df) ++
  concat (imap (λ i (r : Row),
            imap (λ j p, ((startrow + 2 + i, j + 1), excel_value p.2)) r)
          (rows df)).

(** The check of the frame's shape at the start of [to_excel]: 2^20 rows,
    2^14 columns. *)
Definition sheet_too_large (df : DataFrame) : bool :=
  bool_decide (1048576 < Z.of_nat (length (rows df)))%Z
  || bool_decide (16384 < Z.of_nat (length (columns df)))%Z.

(** [df.iloc[i, j]] of a row. *)
Definition cell_at (j : nat) (r : Row) : cell :=
  default NaN (snd <$> r !! j).

(** Writing one value into the sheet: [ws.cell(row=row, ...)] refuses a
    row beyond the last row of a sheet, then the cell checks the string. *)
Definition write_error (row : nat) (c : cell) : option string :=
  if bool_decide (1048576 < Z.of_nat row)%Z then
    Some ("Row numbers must be between 1 and 1048576. Row number supplied was "
            +:+ str_nat row)
  else
    match c with
    | Str s =>
        match check_string s with
        | inl _ => None
        | inr message => Some message
        end
    | NaN | Num _ => None
    end.

(** The first of a sequence of checks that fails. *)
Definition first_error (checks : list (option string)) : option string :=
  head (omap id checks).

(** The exception that leaves [with pd.ExcelWriter(...)] when
    [df.to_excel(..., startrow=startrow)] fails.  A frame that is too
    large is refused before any sheet exists, and saving the workbook
    without a sheet, on leaving the block, raises in its turn.  Otherwise
    the header is written label by label, then the body column by column,
    and the first write that fails ends the call. *)
Definition to_excel_error (startrow : nat) (df : DataFrame) : option string :=
  if sheet_too_large df then Some "At least one sheet must be visible"
  else
    first_error
      ((write_error (startrow + 1) ∘ Str <$> columns df) ++
       (j ← seq 0 (length (columns df));
        imap (λ i r, write_error (startrow + 2 + i) (cell_at j r)) (rows df))).

(** [strftime('%Y-%m-%d %H:%M:%S')] *)
Definition strftime_YmdHMS (t : Timestamp) : string :=
  date_strftime_Ymd t +:+ " " +:+ zfill 2 (str_nat (hour t)) +:+ ":"
    +:+ zfill 2 (str_nat (minute t)) +:+ ":" +:+ zfill 2 (str_nat (second t)).

(** [(len(df.columns) - len(self.STUDENT_COLUMNS)) // 7] *)
Definition question_count (df : DataFrame) : Z :=
  ((Z.of_nat (length (columns df)) - Z.of_nat (length STUDENT_COLUMNS))
     `div` 7)%Z.

Definition column_width (col : string) : nat :=
  if decide (col = "TestDate") then 12
  else if decide (col = "SchoolName") then 25
  else if decide (col ∈ STUDENT_COLUMNS) then 12
  else 10.

(** The workbook of the empty case. *)
Definition no_data_workbook (contest_id : Z) : Workbook :=
  [mkWorksheet "Sheet"
     (write_cells
        [((1, 1), Str ("Contest ID: " +:+ str_int contest_id));
         ((2, 1), Str "No data found for the specified filters.")] ∅)
     ∅ None ∅].

Definition responses_sheet (df : DataFrame) (contest_id : Z)
    (now : Timestamp) : Worksheet :=
  mkWorksheet "Student Responses"
    (write_cells
       [((1, 1), Str ("Contest ID: " +:+ str_int contest_id));
        ((2, 1), Str ("Generated: " +:+ strftime_YmdHMS now));
        ((3, 1), Str ("Students: " +:+ str_nat (length (rows df))
                      +:+ " | Questions: " +:+ str_int (question_count df)))]
       (write_cells (to_excel_cells 3 df) ∅))
    (write_cells
       ((λ col_idx, ((4, col_idx), header_style))
          <$> seq 1 (length (columns df)))
       {[ (1, 1) := title_style ]})
    (Some (5, length STUDENT_COLUMNS + 1))
    (foldl (λ m p, <[p.1 := column_width p.2]> m) ∅
       (enumerate 1 (columns df))).

Definition summary_df (df : DataFrame) (contest_id : Z) (now : Timestamp)
    : DataFrame :=
  let metric := ["Contest ID"; "Total Students"; "Total Schools";
                 "Total Questions"; "Generated At"] in
  let value :=
    [Num contest_id;
     Num (Z.of_nat (length (rows df)));
     Num (if decide ("SchoolId" ∈ columns df)
          then Z.of_nat (nunique (series "SchoolId" df)) else 0);
     Num (question_count df);
     Str (strftime_YmdHMS now)] in
  mkDataFrame ["Metric"; "Value"]
    (zip_with (λ m v, [("Metric", Str m); ("Value", v)]) metric value).

Definition summary_sheet (df : DataFrame) (contest_id : Z) (now : Timestamp)
    : Worksheet :=
  mkWorksheet "Summary"
    (write_cells (to_excel_cells 0 (summary_df df contest_id now)) ∅)
    ∅ None ∅.

(** [generate_excel(df, contest_id, contest_info)]; [now1] and [now2] are
    what the two calls of [datetime.now()] return. *)
Definition generate_excel (df : DataFrame) (contest_id : Z)
    (contest_info : option (list (string * cell)))
    (now1 now2 : Timestamp) : outcome :=
  if is_empty df then Returned (no_data_workbook contest_id)
  else
    match to_excel_error 3 df with
    | Some error => Raised error
    | None => Returned [responses_sheet df contest_id now1;
                        summary_sheet df contest_id now2]
    end.

(** ** Vocabulary of the properties *)

(** The documented default of each question-detail field. *)
Definition default_fill (v : ValueCol) : cell :=
  match v with
  | VStudentAnswer => Str "Not Answered"
  | VScore => Num 0
  | _ => Str "N/A"
  end.

(** Some record of a known student for the question in slot [col.2] carries
    a value in field [col.1]. *)
Definition has_data (df : list FlatRecord) (col : ValueCol * nat) : Prop :=
  Exists (λ r, StudentId r ≠ NaN ∧ QNum df r = Some col.2
               ∧ value_of col.1 r ≠ NaN) df.

Global Instance has_data_dec df col : Decision (has_data df col).
Proof. unfold has_data. apply _. Defined.

(** The row of [result_df] (the merge of [students_df] with [pivoted]) that
    starts from student record [s]. *)
Definition merged_row (df : list FlatRecord) (s : FlatRecord) : Row :=
  student_row s ++
  ((λ col, (new_col_name col, agg df (StudentId s, col.2) col.1))
     <$> pivot_columns df).

(** The number of distinct question ids of the input. *)
Definition question_total (df : list FlatRecord) : nat :=
  size (list_to_set (QuestionID <$> df) : gset Z).

(** The block of slot [k]: Qk_QuestionId, Qk_Subject, Qk_Level, Qk_Type,
    Qk_StudentAnswer, Qk_CorrectAnswer, Qk_Score. *)
Definition question_block (k : nat) : list (ValueCol * nat) :=
  (λ v, (v, k)) <$> pivot_keys.

(** The columns of the report: the student columns, then of every block
    the columns that have data. *)
Definition report_columns (df : list FlatRecord) : list string :=
  STUDENT_COLUMNS ++
  (k ← seq 1 (question_total df);
   new_col_name <$> filter (has_data df) (question_block k)).

(** The row of the report that starts from student record [s]. *)
Definition report_row (df : list FlatRecord) (s : FlatRecord) : Row :=
  (λ c, (c, fill_blank c (default NaN (row_get c (merged_row df s)))))
    <$> report_columns df.

(** Row [row] of the report has no record for the question in slot [k]. *)
Definition no_record (df : list FlatRecord) (row : Row) (k : nat) : Prop :=
  ∀ r, r ∈ df → row_get "StudentId" row = Some (StudentId r) →
       QNum df r ≠ Some k.

(** No student id and no question-detail field of the input is null (what
    the COALESCE and CASE expressions of the query establish for the
    question fields). *)
Definition complete (df : list FlatRecord) : Prop :=
  Forall (λ r, StudentId r ≠ NaN ∧ ∀ v, value_of v r ≠ NaN) df.

(** [r] and [r'] answer the same question for the same student. *)
Definition same_pair (r r' : FlatRecord) : Prop :=
  StudentId r' = StudentId r ∧ QuestionID r' = QuestionID r.

Global Instance same_pair_dec r r' : Decision (same_pair r r').
Proof. unfold same_pair. apply _. Defined.

(** A number that a float holds exactly. *)
Definition exact (c : cell) : Prop :=
  match c with
  | Num z => (Z.abs z ≤ 2 ^ 53)%Z
  | NaN | Str _ => True
  end.

Global Instance exact_dec c : Decision (exact c).
Proof. destruct c; apply _. Defined.

(** The values of a record, the question id as a number. *)
Definition record_cells (r : FlatRecord) : list cell :=
  [SchoolId r; SchoolName r; StudentId r; FirstName r; LastName r; Gender r;
   Grade r; Region r; Num (QuestionID r); QuestionType r; Subject r; Level r;
   StudentAnswer r; CorrectAnswer r; Score r].

(** A record within the ranges of pandas: numbers that a float holds
    exactly, and a test date that a [datetime64[ns]] holds (the years 1678
    to 2261 are within its range). *)
Definition representable (r : FlatRecord) : Prop :=
  Forall exact (record_cells r)
  ∧ match TestDate r with
    | Some t => 1678 ≤ year t ≤ 2261
    | None => True
    end.

Global Instance representable_dec r : Decision (representable r).
Proof. unfold representable. destruct (TestDate r); apply _. Defined.

(** A frame of the embedding that stands for a pandas frame: distinct
    labels, and in every row one cell under each label, in the order of
    the labels. *)
Definition well_formed (df : DataFrame) : Prop :=
  NoDup (columns df) ∧ Forall (λ r : Row, r.*1 = columns df) (rows df).

Global Instance well_formed_dec df : Decision (well_formed df).
Proof. unfold well_formed. apply _. Defined.

(** A frame whose numbers a float holds exactly. *)
Definition exact_frame (df : DataFrame) : Prop :=
  Forall (λ r : Row, Forall (λ p, exact p.2) r) (rows df).

Global Instance exact_frame_dec df : Decision (exact_frame df).
Proof. unfold exact_frame. apply _. Defined.

(** A value a sheet takes: a string without illegal character among its
    first 32767 characters, a number or a null. *)
Definition legal (c : cell) : bool :=
  match c with
  | Str s => negb (has_illegal_character (str_slice 32767 s))
  | NaN | Num _ => true
  end.

(** A frame that fits a sheet below the three header lines, with legal
    labels and values. *)
Definition writable (df : DataFrame) : bool :=
  bool_decide (Z.of_nat (length (rows df)) ≤ 1048572)%Z
  && bool_decide (Z.of_nat (length (columns df)) ≤ 16384)%Z
  && forallb (λ c, legal (Str c)) (columns df)
  && forallb (λ r : Row, forallb (λ p, legal p.2) r) (rows df).

(** *** The statements under test, as written in the specification *)

(** Default-fill completeness: a slot without a record for the student of
    a row shows the whole defaulted block in that row. *)
Definition default_block_complete (df : list FlatRecord) : Prop :=
  ∀ row k v,
    row ∈ rows (pivot_student_data df) →
    1 ≤ k ≤ question_total df →
    no_record df row k →
    row_get (new_col_name (v, k)) row = Some (default_fill v).

(** Blank answers: one record whose answer is the empty string shows
    "Not Answered" under Q1_StudentAnswer. *)
Definition blank_answer_replaced (r : FlatRecord) : Prop :=
  StudentAnswer r = Str "" →
  ∀ row, row ∈ rows (pivot_student_data [r]) →
         row_get "Q1_StudentAnswer" row = Some (Str "Not Answered").

(** Duplicate collapse: the cells of a (student, question) pair show the
    fields of the first record of the pair, as they are or, where null, by
    their default. *)
Definition first_record_wins (df : list FlatRecord) : Prop :=
  ∀ l1 r l2 row k v,
    df = l1 ++ r :: l2 →
    Forall (λ r', ¬ same_pair r r') l1 →
    row ∈ rows (pivot_student_data df) →
    row_get "StudentId" row = Some (StudentId r) →
    QNum df r = Some k →
    row_get (new_col_name (v, k)) row = Some (value_of v r)
    ∨ row_get (new_col_name (v, k)) row
      = Some (fillna (default_fill v) (value_of v r)).

(** Identity check: a record without a student id gets no row. *)
Definition missing_identity_rejected (df : list FlatRecord) : Prop :=
  ∀ r, r ∈ df → StudentId r = NaN →
       ∀ row, row ∈ rows (pivot_student_data df) →
              row_get "StudentId" row ≠ Some NaN.

(** Slot consistency: where the student of a row has a record for the
    question in slot [k], the row shows that question's id under
    Qk_QuestionId. *)
Definition slot_cells_consistent (df : list FlatRecord) : Prop :=
  ∀ row r k,
    row ∈ rows (pivot_student_data df) →
    r ∈ df →
    row_get "StudentId" row = Some (StudentId r) →
    QNum df r = Some k →
    row_get (new_col_name (VQuestionID, k)) row = Some (Num (QuestionID r)).

(** *** Inputs *)

(** A record of student [sid] for question [q], with answer [ans] and score
    [sc]; it carries no gender and no grade. *)
Definition answer (sid : string) (q : Z) (ans : string) (sc : Z)
    : FlatRecord :=
  mkFlatRecord (Some (mkTimestamp 2024 3 7 9 30 0)) (Num 7) (Str "North High")
    (Str sid) (Str "First") (Str "Last") NaN NaN (Str "West")
    q (Str "MCQ") (Str "Math") (Str "Easy") (Str ans) (Str "B") (Num sc).

Definition with_subject (s : cell) (r : FlatRecord) : FlatRecord :=
  mkFlatRecord (TestDate r) (SchoolId r) (SchoolName r) (StudentId r)
    (FirstName r) (LastName r) (Gender r) (Grade r) (Region r)
    (QuestionID r) (QuestionType r) s (Level r)
    (StudentAnswer r) (CorrectAnswer r) (Score r).

Definition with_score (s : cell) (r : FlatRecord) : FlatRecord :=
  mkFlatRecord (TestDate r) (SchoolId r) (SchoolName r) (StudentId r)
    (FirstName r) (LastName r) (Gender r) (Grade r) (Region r)
    (QuestionID r) (QuestionType r) (Subject r) (Level r)
    (StudentAnswer r) (CorrectAnswer r) s.

Definition with_student (s : cell) (r : FlatRecord) : FlatRecord :=
  mkFlatRecord (TestDate r) (SchoolId r) (SchoolName r) s
    (FirstName r) (LastName r) (Gender r) (Grade r) (Region r)
    (QuestionID r) (QuestionType r) (Subject r) (Level r)
    (StudentAnswer r) (CorrectAnswer r) (Score r).

(** The scenario of the specification: questions 50, 10 and 30; student A
    answers 50 and 10, student B answers 30. *)
Definition scenario : list FlatRecord :=
  [answer "A" 50 "C" 0; answer "A" 10 "B" 1; answer "B" 30 "B" 1].

(** Question 10 has no subject on record; student B answers question 20
    only. *)
Definition no_subject_input : list FlatRecord :=
  [with_subject NaN (answer "A" 10 "B" 1); answer "B" 20 "C" 0].

(** One student, one question, an empty answer. *)
Definition blank_answer_input : FlatRecord := answer "A" 10 "" 0.

(** Two records of student A for question 10: the first without a score,
    the second with score 5. *)
Definition duplicate_input : list FlatRecord :=
  [with_score NaN (answer "A" 10 "B" 0); answer "A" 10 "B" 5].

(** A record without a student id, next to a record of student A. *)
Definition no_student_input : list FlatRecord :=
  [with_student NaN (answer "" 10 "B" 1); answer "A" 10 "C" 0].

(** A frame of 9 student columns and 3 question blocks. *)
Definition three_block_frame : DataFrame := pivot_student_data scenario.

(** A reading of the clock. *)
Definition clock : Timestamp := mkTimestamp 2026 1 15 8 5 9.

(** * The data access layer: [database.py], [services/query_service.py] *)

(** The exceptions the application meets: FastAPI's [HTTPException], its
    own [DatabaseError], [pyodbc.Error], and any other Python exception. *)
Inductive exn : Type :=
  | HTTPException (status_code : nat) (detail : string)
  | DatabaseError (message : string)
  | PyodbcError (message : string)
  | PyError (message : string).

(** [str(e)]; an [HTTPException] prints as [f"{status_code}: {detail}"]. *)
Definition exn_str (e : exn) : string :=
  match e with
  | HTTPException status_code detail => str_nat status_code +:+ ": " +:+ detail
  | DatabaseError m | PyodbcError m | PyError m => m
  end.

(** The outcome of a call: a value or a raised exception. *)
Inductive result (A : Type) : Type :=
  | Ok (a : A)
  | Raise (e : exn).
Global Arguments Ok {A} a.
Global Arguments Raise {A} e.

Global Instance result_ret : MRet result := λ A a, Ok a.
Global Instance result_bind : MBind result := λ A B f r,
  match r with
  | Ok a => f a
  | Raise e => Raise e
  end.

(** A value of a result row. *)
Inductive dbval : Type :=
  | DNull
  | DInt (z : Z)
  | DStr (s : string)
  | DDate (t : Timestamp).

Global Instance Timestamp_eq_dec : EqDecision Timestamp.
Proof. solve_decision. Defined.

Global Instance dbval_eq_dec : EqDecision dbval.
Proof. solve_decision. Defined.

(** What a cursor holds after [execute]: the column names of
    [cursor.description] and the rows to fetch. *)
Record ResultSet : Type := mkResultSet {
  description : list string;
  fetched : list (list dbval)
}.

(** The SQL Server behind the service.  [execute query params] is what
    connecting, setting the isolation level and [cursor.execute] give;
    [read_sql_query] is what [pd.read_sql_query] gives on the connection. *)
Record Backend : Type := mkBackend {
  execute : string → list dbval → result ResultSet;
  read_sql_query : string → list dbval → result (list FlatRecord)
}.

(** [cursor.fetchone()] *)
Definition fetchone (rs : ResultSet) : option (list dbval) := head (fetched rs).

(** [with db.get_connection() as conn: body]: a [pyodbc.Error] raised while
    connecting or inside the body leaves as a [DatabaseError]; anything
    else passes. *)
Definition get_connection {A : Type} (body : result A) : result A :=
  match body with
  | Raise (PyodbcError m) =>
      Raise (DatabaseError ("Database connection error: " +:+ m))
  | _ => body
  end.

(** [with db.get_cursor() as cursor: body] *)
Definition get_cursor {A : Type} (body : result A) : result A :=
  get_connection body.

(** [row[0]] *)
Definition first_column (row : list dbval) : result dbval :=
  match row with
  | x :: _ => Ok x
  | [] => Raise (PyError "IndexError: tuple index out of range")
  end.

(** [test_connection()]: SELECT 1 and compare; any exception gives False. *)
Definition test_connection (db : Backend) : bool :=
  match get_cursor
          (rs ← execute db "SELECT 1" [];
           match fetchone rs with
           | None =>
               Raise (PyError "TypeError: 'NoneType' object is not subscriptable")
           | Some row => x ← first_column row; mret (bool_decide (x = DInt 1))
           end) with
  | Ok connected => connected
  | Raise _ => false
  end.

(** [try: body except Exception as e: raise DatabaseError(f"{prefix}{e}")] *)
Definition or_database_error {A : Type} (prefix : string) (body : result A)
    : result A :=
  match body with
  | Ok a => Ok a
  | Raise e => Raise (DatabaseError (prefix +:+ exn_str e))
  end.

(** Truth value of a fetched value. *)
Definition truthy (v : dbval) : bool :=
  match v with
  | DNull => false
  | DInt z => bool_decide (z ≠ 0%Z)
  | DStr s => bool_decide (s ≠ "")
  | DDate _ => true
  end.

(** [v.strftime('%Y-%m-%d')]; a value that is no date has no such
    method. *)
Definition strftime_date (v : dbval) : result string :=
  match v with
  | DDate t => Ok (date_strftime_Ymd t)
  | DInt _ => Raise (PyError "'int' object has no attribute 'strftime'")
  | DStr _ => Raise (PyError "'str' object has no attribute 'strftime'")
  | DNull => Raise (PyError "'NoneType' object has no attribute 'strftime'")
  end.

(** ** [QueryService] *)

(** The text of the student-responses query before and after the TOP
    clause. *)
Definition responses_select : string := "
        SELECT ".

Definition responses_body : string := "
            -- Test Date
            COALESCE(ts.TestStartDateTime, cc.ExamStartDateTime) AS TestDate,
            
            -- School Info
            s.Id AS SchoolId,
            s.SchoolName,
            
            -- Student Info
            u.LoginId AS StudentId,
            u.FirstName,
            u.LastName,
            u.Gender,
            u.Grade,
            
            -- Region (from School.RegionID -> Region table)
            COALESCE(reg.RegionName, 'N/A') AS Region,
            
            -- Question Info
            tr.QuestionID,
            COALESCE(qb.QuestionType, 'N/A') AS QuestionType,
            COALESCE(subj.SubjectName, 'N/A') AS Subject,
            COALESCE(lvl.LovName, 'N/A') AS Level,
            
            -- Answers and Score (strip HTML from CorrectAnswer, mark unanswered)
            CASE 
                WHEN tr.UserAnswer IS NULL OR tr.UserAnswer = '' THEN 'Not Answered'
                ELSE tr.UserAnswer 
            END AS StudentAnswer,
            -- Strip <p> and </p> tags from Answer
            REPLACE(REPLACE(COALESCE(qb.Answer, 'N/A'), '<p>', ''), '</p>', '') AS CorrectAnswer,
            COALESCE(tr.Credits, 0) AS Score
            
        FROM CCTTestResults tr WITH (NOLOCK)
        
        -- Join to Users for student info
        INNER JOIN Users u WITH (NOLOCK)
            ON tr.UserID = u.UserId
            
        -- Join to School
        INNER JOIN School s WITH (NOLOCK)
            ON u.SchoolId = s.Id
            
        -- Join to ContestCreation for test metadata
        INNER JOIN ContestCreation cc WITH (NOLOCK)
            ON tr.ContestCreationID = cc.ContestCreationID
            
        -- Left join to test attendance for actual test date
        LEFT JOIN CCTTestStudents ts WITH (NOLOCK)
            ON tr.UserID = ts.UserId 
            AND tr.ContestCreationID = ts.ContestCreationId
            
        -- Join to QBankMaster for question details
        LEFT JOIN QBankMaster qb WITH (NOLOCK)
            ON tr.QuestionID = qb.QuestionID
            
        -- Join to Subject for subject name
        LEFT JOIN Subject subj WITH (NOLOCK)
            ON qb.SubjectId = subj.SubjectId
            
        -- Join to Lov for question difficulty level
        LEFT JOIN Lov lvl WITH (NOLOCK)
            ON qb.Level = lvl.LovId
            
        -- Join for Region from School.RegionID
        LEFT JOIN Region reg WITH (NOLOCK)
            ON s.RegionID = reg.RegionID
            
        WHERE tr.ContestCreationID = ?
        AND CAST(COALESCE(ts.TestStartDateTime, cc.ExamStartDateTime) AS DATE) = ?
        ".

Definition responses_order_by : string := "
        ORDER BY 
            s.SchoolName,
            u.LastName,
            u.FirstName,
            tr.QuestionID
        ".

(** [get_student_responses]: the query text. *)
Definition student_responses_query (max_rows : Z) (grade school_id : option Z)
    : string :=
  let top_clause :=
    if bool_decide (0 < max_rows)%Z then "TOP " +:+ str_int max_rows else "" in
  let query := responses_select +:+ top_clause +:+ responses_body in
  let query :=
    match grade with
    | Some _ => query +:+ " AND u.Grade = ?"
    | None => query
    end in
  let query :=
    match school_id with
    | Some _ => query +:+ " AND s.Id = ?"
    | None => query
    end in
  query +:+ responses_order_by.

(** [get_student_responses]: the parameter list; [test_date.isoformat()]
    is the date as YYYY-MM-DD. *)
Definition student_responses_params (contest_id : Z) (test_date : Timestamp)
    (grade school_id : option Z) : list dbval :=
  [DInt contest_id; DStr (strftime_Ymd test_date)]
  ++ match grade with Some g => [DInt g] | None => [] end
  ++ match school_id with Some s => [DInt s] | None => [] end.

Definition get_student_responses (db : Backend) (max_rows : Z)
    (contest_id : Z) (test_date : Timestamp) (grade school_id : option Z)
    : result (list FlatRecord) :=
  or_database_error "Error fetching student responses: "
    (get_connection
       (read_sql_query db (student_responses_query max_rows grade school_id)
          (student_responses_params contest_id test_date grade school_id))).

Definition contest_info_query : string := "
        SELECT TOP 1
            cc.ContestCreationID,
            cc.ExamStartDateTime,
            cc.ExamEndDateTime
        FROM ContestCreation cc WITH (NOLOCK)
        WHERE cc.ContestCreationID = ?
        ".

(** [d[k] = v] on a dict kept in insertion order: a key already present
    keeps its place and takes the new value. *)
Fixpoint dict_set {V : Type} (k : string) (v : V) (d : list (string * V))
    : list (string * V) :=
  match d with
  | [] => [(k, v)]
  | (k', v') :: d' =>
      if decide (k' = k) then (k, v) :: d' else (k', v') :: dict_set k v d'
  end.

(** [dict(items)] *)
Definition dict {V : Type} (items : list (string * V)) : list (string * V) :=
  foldl (λ d kv, dict_set kv.1 kv.2 d) [] items.

(** [get_contest_info]: the row as a dict keyed by column name; no row
    gives the empty dict. *)
Definition get_contest_info (db : Backend) (contest_id : Z)
    : result (list (string * dbval)) :=
  or_database_error "Error fetching contest info: "
    (get_cursor
       (rs ← execute db contest_info_query [DInt contest_id];
        match fetchone rs with
        | Some (x :: row) => mret (dict (zip (description rs) (x :: row)))
        | _ => mret []
        end)).

Definition question_count_query : string := "
        SELECT COUNT(DISTINCT tr.QuestionID) AS QuestionCount
        FROM CCTTestResults tr WITH (NOLOCK)
        WHERE tr.ContestCreationID = ?
        ".

(** [get_question_count]: [row[0] if row else 0]. *)
Definition get_question_count (db : Backend) (contest_id : Z) : result dbval :=
  or_database_error "Error fetching question count: "
    (get_cursor
       (rs ← execute db question_count_query [DInt contest_id];
        match fetchone rs with
        | Some (x :: _) => mret x
        | _ => mret (DInt 0)
        end)).

Definition validate_contest_query : string := "
        SELECT TOP 1 1
        FROM ContestCreation WITH (NOLOCK)
        WHERE ContestCreationID = ?
        ".

(** [validate_contest_exists]: [cursor.fetchone() is not None]. *)
Definition validate_contest_exists (db : Backend) (contest_id : Z)
    : result bool :=
  or_database_error "Error validating contest: "
    (get_cursor
       (rs ← execute db validate_contest_query [DInt contest_id];
        mret (bool_decide (fetchone rs ≠ None)))).

Definition test_dates_query : string := "
        SELECT DISTINCT 
            CAST(COALESCE(ts.TestStartDateTime, cc.ExamStartDateTime) AS DATE) AS TestDate
        FROM CCTTestResults tr WITH (NOLOCK)
        INNER JOIN ContestCreation cc WITH (NOLOCK)
            ON tr.ContestCreationID = cc.ContestCreationID
        LEFT JOIN CCTTestStudents ts WITH (NOLOCK)
            ON tr.UserID = ts.UserId 
            AND tr.ContestCreationID = ts.ContestCreationId
        WHERE tr.ContestCreationID = ?
        ORDER BY TestDate DESC
        ".

(** [[row[0].strftime('%Y-%m-%d') if row[0] else None
      for row in rows if row[0]]] *)
Fixpoint test_dates_of (rows : list (list dbval))
    : result (list (option string)) :=
  match rows with
  | [] => Ok []
  | row :: rows' =>
      x ← first_column row;
      if truthy x then
        d ← (if truthy x then s ← strftime_date x; mret (Some s)
             else mret None);
        ds ← test_dates_of rows';
        mret (d :: ds)
      else test_dates_of rows'
  end.

Definition get_available_test_dates (db : Backend) (contest_id : Z)
    : result (list (option string)) :=
  or_database_error "Error fetching test dates: "
    (get_cursor
       (rs ← execute db test_dates_query [DInt contest_id];
        test_dates_of (fetched rs))).

(** * The HTTP layer: [routes/reports.py], [api/index.py], [config.py] *)

(** What an endpoint returns: the two JSON bodies and the file download. *)
Inductive response : Type :=
  | TestDatesResponse (contest_id : Z) (test_dates : list (option string))
      (total_dates : nat)
  | ContestInfoResponse (contest_id : Z) (contest_info : list (string * dbval))
      (question_count : dbval)
  | StreamingResponse (content : Workbook) (media_type : string)
      (headers : list (string * string)).

(** [HTTPException(status_code=404,
      detail=f"Contest with ID {contest_id} not found")] *)
Definition contest_not_found (contest_id : Z) : exn :=
  HTTPException 404 ("Contest with ID " +:+ str_int contest_id +:+ " not found").

(** [except DatabaseError as e: raise HTTPException(status_code=500,
      detail=f"Database error: {str(e)}")] *)
Definition database_error_500 (e : exn) : exn :=
  HTTPException 500 ("Database error: " +:+ exn_str e).

(** GET /api/reports/test-dates/{contest_id} *)
Definition get_test_dates (db : Backend) (contest_id : Z) : result response :=
  match
    found ← validate_contest_exists db contest_id;
    if negb found then Raise (contest_not_found contest_id)
    else
      dates ← get_available_test_dates db contest_id;
      mret (TestDatesResponse contest_id dates (length dates))
  with
  | Raise (DatabaseError m) => Raise (database_error_500 (DatabaseError m))
  | r => r
  end.

(** [strftime('%Y%m%d_%H%M%S')] *)
Definition strftime_compact (t : Timestamp) : string :=
  str_nat (year t) +:+ zfill 2 (str_nat (month t))
    +:+ zfill 2 (str_nat (day t)) +:+ "_" +:+ zfill 2 (str_nat (hour t))
    +:+ zfill 2 (str_nat (minute t)) +:+ zfill 2 (str_nat (second t)).

(** The contest metadata as handed to [generate_excel], which does not
    read it; dates are shown as text. *)
Definition cell_of_dbval (v : dbval) : cell :=
  match v with
  | DNull => NaN
  | DInt z => Num z
  | DStr s => Str s
  | DDate t => Str (strftime_YmdHMS t)
  end.

Definition xlsx_media_type : string :=
  "application/vnd.openxmlformats-officedocument.spreadsheetml.sheet".

(** GET /api/reports/student-responses; [now1] and [now2] are read by
    [generate_excel], [now3] for the file name. *)
Definition get_student_responses_report (db : Backend) (max_rows : Z)
    (contest_id : Z) (test_date : Timestamp) (grade school_id : option Z)
    (now1 now2 now3 : Timestamp) : result response :=
  match
    found ← validate_contest_exists db contest_id;
    if negb found then Raise (contest_not_found contest_id)
    else
      contest_info ← get_contest_info db contest_id;
      raw_df ← get_student_responses db max_rows contest_id test_date
                 grade school_id;
      let pivoted_df := pivot_student_data raw_df in
      excel_buffer ←
        match generate_excel pivoted_df contest_id
                (Some (prod_map id cell_of_dbval <$> contest_info))
                now1 now2 with
        | Returned wb => Ok wb
        | Raised error => Raise (PyError error)
        end;
      let timestamp := strftime_compact now3 in
      let filename :=
        "student_responses_contest_" +:+ str_int contest_id +:+ "_"
          +:+ timestamp +:+ ".xlsx" in
      mret (StreamingResponse excel_buffer xlsx_media_type
              [("Content-Disposition", "attachment; filename=" +:+ filename)])
  with
  | Raise (DatabaseError m) => Raise (database_error_500 (DatabaseError m))
  | Raise e =>
      Raise (HTTPException 500 ("Error generating report: " +:+ exn_str e))
  | r => r
  end.

(** GET /api/reports/contest-info/{contest_id} *)
Definition get_contest_info_route (db : Backend) (contest_id : Z)
    : result response :=
  match
    found ← validate_contest_exists db contest_id;
    if negb found then Raise (contest_not_found contest_id)
    else
      info ← get_contest_info db contest_id;
      question_count ← get_question_count db contest_id;
      mret (ContestInfoResponse contest_id info question_count)
  with
  | Raise (DatabaseError m) => Raise (database_error_500 (DatabaseError m))
  | r => r
  end.

(** GET /health; [now] is [datetime.now().isoformat()]. *)
Record HealthStatus : Type := mkHealthStatus {
  status : string;
  database_connected : bool;
  timestamp : string
}.

Definition health_check (db : Backend) (now : string) : HealthStatus :=
  let db_connected := test_connection db in
  mkHealthStatus (if db_connected then "healthy" else "degraded")
    db_connected now.

(** [config.Settings] *)
Record Settings : Type := mkSettings {
  DB_SERVER : string;
  DB_NAME : string;
  DB_USER : string;
  DB_PASSWORD : string;
  USE_WINDOWS_AUTH : bool;
  MAX_ROWS : Z;
  QUERY_TIMEOUT : Z
}.

(** [Settings.connection_string] *)
Definition connection_string (s : Settings) : string :=
  if USE_WINDOWS_AUTH s then
    "DRIVER={ODBC Driver 18 for SQL Server};"
    +:+ "SERVER=" +:+ DB_SERVER s +:+ ";"
    +:+ "DATABASE=" +:+ DB_NAME s +:+ ";"
    +:+ "Trusted_Connection=yes;"
    +:+ "ApplicationIntent=ReadOnly;"
    +:+ "TrustServerCertificate=yes;"
  else
    "DRIVER={ODBC Driver 18 for SQL Server};"
    +:+ "SERVER=" +:+ DB_SERVER s +:+ ";"
    +:+ "DATABASE=" +:+ DB_NAME s +:+ ";"
    +:+ "UID=" +:+ DB_USER s +:+ ";"
    +:+ "PWD=" +:+ DB_PASSWORD s +:+ ";"
    +:+ "ApplicationIntent=ReadOnly;"
    +:+ "TrustServerCertificate=yes;".

(** *** Vocabulary and inputs of the service properties *)

(** The number of occurrences of a character. *)
Fixpoint count_char (c : Ascii.ascii) (s : string) : nat :=
  match s with
  | EmptyString => 0
  | String x s' => (if decide (x = c) then 1 else 0) + count_char c s'
  end.

(** [sub in s] *)
Fixpoint contains (sub s : string) : bool :=
  String.prefix sub s
  || match s with
     | EmptyString => false
     | String _ s' => contains sub s'
     end.

(** A server that cannot be reached. *)
Definition down_backend : Backend :=
  mkBackend (λ _ _, Raise (PyodbcError "Login timeout expired"))
            (λ _ _, Raise (PyodbcError "Login timeout expired")).

(** A server without any row for the contest. *)
Definition no_rows_backend : Backend :=
  mkBackend (λ _ _, Ok (mkResultSet [] [])) (λ _ _, Ok []).

(** A server that knows the contest, its three test dates (one of them
    null) and the records of the scenario. *)
Definition sample_backend : Backend :=
  mkBackend
    (λ query _,
       if decide (query = test_dates_query) then
         Ok (mkResultSet ["TestDate"]
               [[DDate (mkTimestamp 2024 3 8 0 0 0)]; [DNull];
                [DDate (mkTimestamp 999 1 2 0 0 0)]])
       else if decide (query = contest_info_query) then
         Ok (mkResultSet
               ["ContestCreationID"; "ExamStartDateTime"; "ExamEndDateTime"]
               [[DInt 178; DDate (mkTimestamp 2024 3 7 9 0 0);
                 DDate (mkTimestamp 2024 3 8 17 0 0)]])
       else Ok (mkResultSet ["value"] [[DInt 1]]))
    (λ _ _, Ok scenario).

(** * Properties *)

(** A row of a computed report, by its position. *)
Ltac row_at i :=
  apply (list_elem_of_lookup_2 _ i); vm_compute; reflexivity.

(** ** The scenario of the specification *)

(** Questions 50, 10 and 30 take the slots 3, 1 and 2. *)
Example scenario_slots :
  q_id_to_num scenario = {[ 10%Z := 1; 30%Z := 2; 50%Z := 3 ]}.
Proof. vm_compute. reflexivity. Qed.

(** Student A (questions 10 and 50) has the defaults in block 2, student B
    (question 30) in the blocks 1 and 3. *)
Example scenario_blocks :
  (λ row : Row, (λ c, row_get c row)
     <$> ["StudentId"; "Q1_QuestionId"; "Q1_StudentAnswer"; "Q1_Score";
          "Q2_QuestionId"; "Q2_StudentAnswer"; "Q2_Score";
          "Q3_QuestionId"; "Q3_StudentAnswer"; "Q3_Score"])
    <$> rows (pivot_student_data scenario)
  = [ [Some (Str "A");
       Some (Num 10); Some (Str "B"); Some (Num 1);
       Some (Str "N/A"); Some (Str "Not Answered"); Some (Num 0);
       Some (Num 50); Some (Str "C"); Some (Num 0)];
      [Some (Str "B");
       Some (Str "N/A"); Some (Str "Not Answered"); Some (Num 0);
       Some (Num 30); Some (Str "B"); Some (Num 1);
       Some (Str "N/A"); Some (Str "Not Answered"); Some (Num 0)] ].
Proof. vm_compute. reflexivity. Qed.

(** ** Strings *)

Lemma append_cons (x : Ascii.ascii) (a b : string) :
  String x a +:+ b = String x (a +:+ b).
Proof. reflexivity. Qed.

Lemma append_nil_l (b : string) : "" +:+ b = b.
Proof. reflexivity. Qed.

Lemma append_assoc (a b c : string) : (a +:+ b) +:+ c = a +:+ (b +:+ c).
Proof.
  induction a as [|x a IH]; [done|]. by rewrite !append_cons, IH.
Qed.

Lemma rev_app_append (a b acc : string) :
  String.rev_app (a +:+ b) acc = String.rev_app b (String.rev_app a acc).
Proof.
  revert acc. induction a as [|x a IH]; intros acc; [done|].
  rewrite append_cons. apply IH.
Qed.

Lemma rev_app_acc (a acc : string) :
  String.rev_app a acc = String.rev a +:+ acc.
Proof.
  unfold String.rev. revert acc.
  induction a as [|x a IH]; intros acc; [done|].
  cbn. rewrite (IH (String x "")), (IH (String x acc)), append_assoc. done.
Qed.

Lemma rev_append (a b : string) :
  String.rev (a +:+ b) = String.rev b +:+ String.rev a.
Proof. unfold String.rev at 1. by rewrite rev_app_append, rev_app_acc. Qed.

Lemma endswith_append (a b suffix : string) :
  endswith (a +:+ b) suffix
  = String.prefix (String.rev suffix) (String.rev b +:+ String.rev a).
Proof. unfold endswith. by rewrite rev_append. Qed.

Lemma rev_cons (x : Ascii.ascii) (s : string) :
  String.rev (String x s) = String.rev s +:+ String x "".
Proof. by rewrite <-(append_nil_l s), <-append_cons, rev_append. Qed.

Lemma rev_involutive (s : string) : String.rev (String.rev s) = s.
Proof.
  induction s as [|x s IH]; [done|]. by rewrite rev_cons, rev_append, IH.
Qed.

Lemma prefix_append (a b : string) :
  String.prefix a b = true ↔ ∃ c, b = a +:+ c.
Proof.
  revert b. induction a as [|x a IH]; intros b.
  - split; [by exists b|]. by destruct b.
  - destruct b as [|y b]; cbn.
    + split; [done|]. by intros [c ?].
    + destruct (Ascii.ascii_dec x y) as [->|Hne].
      * rewrite IH. split; intros [c Hc]; exists c.
        -- by rewrite append_cons, <-Hc.
        -- rewrite append_cons in Hc. by injection Hc.
      * split; [done|]. intros [c Hc]. rewrite append_cons in Hc.
        by injection Hc as ? _.
Qed.

(** [endswith] is the suffix test of Python. *)
Lemma endswith_suffix (s suffix : string) :
  endswith s suffix = true ↔ ∃ p, s = p +:+ suffix.
Proof.
  unfold endswith. rewrite prefix_append. split.
  - intros [c Hc]. exists (String.rev c).
    by rewrite <-(rev_involutive suffix), <-rev_append, <-Hc, rev_involutive.
  - intros [p ->]. exists (String.rev p). apply rev_append.
Qed.

Lemma string_of_uint_split (d d' : uint) (x x' : string) :
  NilEmpty.string_of_uint d +:+ "_" +:+ x
  = NilEmpty.string_of_uint d' +:+ "_" +:+ x' →
  d = d' ∧ x = x'.
Proof.
  revert d'. induction d as [|d IH|d IH|d IH|d IH|d IH|d IH|d IH|d IH|d IH|d IH];
    intros [|d'|d'|d'|d'|d'|d'|d'|d'|d'|d']; cbn [NilEmpty.string_of_uint];
    rewrite ?append_cons, ?append_nil_l; intros H;
    try discriminate; try (injection H as H; apply IH in H as [-> ->]; done).
  by injection H as ->.
Qed.

Lemma str_nat_inj (n m : nat) : str_nat n = str_nat m → n = m.
Proof.
  unfold str_nat. intros H.
  assert (Some (Nat.to_uint n) = Some (Nat.to_uint m)) as [= Hu].
  { by rewrite <-!NilEmpty.usu, H. }
  by rewrite <-(Unsigned.of_to n), <-(Unsigned.of_to m), Hu.
Qed.

Lemma pivot_cols_inj (v w : ValueCol) : pivot_cols v = pivot_cols w → v = w.
Proof. by destruct v, w. Qed.

Lemma new_col_name_inj (c1 c2 : ValueCol * nat) :
  new_col_name c1 = new_col_name c2 → c1 = c2.
Proof.
  destruct c1 as [v k], c2 as [w j]. unfold new_col_name. cbn [fst snd].
  rewrite !append_cons, !append_nil_l. intros [= H]. apply string_of_uint_split in H as [Hk Hv].
  f_equal.
  - by apply pivot_cols_inj.
  - by apply str_nat_inj; unfold str_nat; rewrite Hk.
Qed.

Lemma new_col_name_split (col : ValueCol * nat) :
  new_col_name col = ("Q" +:+ str_nat col.2) +:+ ("_" +:+ pivot_cols col.1).
Proof. unfold new_col_name. by rewrite append_assoc. Qed.

Lemma fill_blank_new_col (col : ValueCol * nat) :
  fill_blank (new_col_name col) = fillna (default_fill col.1).
Proof.
  rewrite new_col_name_split. unfold fill_blank.
  rewrite !endswith_append.
  generalize (String.rev ("Q" +:+ str_nat col.2)); intros pre.
  destruct col as [[] k], pre; reflexivity.
Qed.

Lemma fill_blank_student (c : string) :
  c ∈ STUDENT_COLUMNS → fill_blank c = id.
Proof.
  unfold STUDENT_COLUMNS. rewrite !elem_of_cons, elem_of_nil.
  intros H. repeat (destruct H as [->|H]; [reflexivity|]). done.
Qed.

Lemma fill_blank_idemp (c : string) (v : cell) :
  fill_blank c (fill_blank c v) = fill_blank c v.
Proof.
  unfold fill_blank. repeat case_match; by destruct v.
Qed.

Lemma new_col_name_not_student (col : ValueCol * nat) :
  new_col_name col ∉ STUDENT_COLUMNS.
Proof.
  unfold new_col_name, STUDENT_COLUMNS. rewrite append_cons, append_nil_l.
  rewrite !elem_of_cons, elem_of_nil. intros H.
  repeat (destruct H as [H|H]; [discriminate H|]). done.
Qed.

(** ** Duplicates *)

Section duplicates.
Context {A K : Type} `{EqDecision K} (key : A → K).

Lemma filter_fmap_key (k : K) (l : list A) :
  key <$> filter (λ y, key y ≠ k) l = filter (λ k', k' ≠ k) (key <$> l).
Proof.
  induction l as [|x l IH]; [done|].
  rewrite fmap_cons, !filter_cons.
  destruct (decide (key x ≠ k)); rewrite ?fmap_cons, IH; done.
Qed.

Lemma drop_duplicates_keys (l : list A) :
  key <$> drop_duplicates key l = unique (key <$> l).
Proof.
  unfold unique. induction l as [|x l IH]; [done|].
  cbn [drop_duplicates fmap list_fmap]. f_equal.
  by rewrite filter_fmap_key, IH.
Qed.

(** The first row of each key value is the one that survives. *)
Lemma elem_of_drop_duplicates_first (l1 l2 : list A) (x : A) :
  Forall (λ y, key y ≠ key x) l1 →
  x ∈ drop_duplicates key (l1 ++ x :: l2).
Proof.
  induction 1 as [|y l1 Hy _ IH]; [left|].
  cbn [app drop_duplicates]. right.
  apply list_elem_of_filter. split; [by intros ?|done].
Qed.

Lemma elem_of_drop_duplicates (x : A) (l : list A) :
  x ∈ drop_duplicates key l → x ∈ l.
Proof.
  induction l as [|y l IH]; [done|]. cbn [drop_duplicates].
  rewrite !elem_of_cons, list_elem_of_filter. intros [?|[_ ?]]; auto.
Qed.
End duplicates.

Section unique.
Context {K : Type} `{EqDecision K}.
Implicit Types l : list K.

Lemma elem_of_unique (x : K) l : x ∈ unique l ↔ x ∈ l.
Proof.
  unfold unique. induction l as [|y l IH]; [done|].
  cbn [drop_duplicates]. rewrite !elem_of_cons, list_elem_of_filter, IH.
  unfold id. destruct (decide (x = y)); intuition.
Qed.

Lemma NoDup_unique l : NoDup (unique l).
Proof.
  unfold unique. induction l as [|y l IH]; [constructor|].
  cbn [drop_duplicates]. constructor.
  - rewrite list_elem_of_filter. unfold id. by intros [? _].
  - by apply NoDup_filter.
Qed.

Lemma unique_Permutation l l' : l ≡ₚ l' → unique l ≡ₚ unique l'.
Proof.
  intros Hp. apply NoDup_Permutation; [apply NoDup_unique..|].
  intros x. by rewrite !elem_of_unique, Hp.
Qed.
End unique.

Lemma length_unique `{Countable K} (l : list K) :
  length (unique l) = size (list_to_set l : gset K).
Proof.
  rewrite <-(size_list_to_set (C:=gset K)) by apply NoDup_unique.
  f_equal. apply set_eq. intros x.
  by rewrite !elem_of_list_to_set, elem_of_unique.
Qed.

(** ** The aggregation [first] *)

Lemma first_nil : first [] = NaN.
Proof. done. Qed.

Lemma first_cons (c : cell) (s : list cell) :
  first (c :: s) = if isna c then first s else c.
Proof. unfold first. rewrite filter_cons. by destruct c. Qed.

Lemma first_notna (s : list cell) :
  first s ≠ NaN ↔ ∃ c, c ∈ s ∧ c ≠ NaN.
Proof.
  induction s as [|c s IH].
  - rewrite first_nil. split; [done|]. intros (c & Hc & _). by inv Hc.
  - rewrite first_cons. destruct c; cbn; [|split; eauto using list_elem_of_here..].
    rewrite IH. split; intros (c & Hc & ?).
    + exists c. split; [by right|done].
    + exists c. split; [|done]. by apply elem_of_cons in Hc as [->|].
Qed.

Lemma first_all_na (s : list cell) : Forall (λ c, c = NaN) s → first s = NaN.
Proof.
  intros Hs. destruct (decide (first s = NaN)) as [|Hne]; [done|].
  apply first_notna in Hne as (c & Hc & Hne).
  rewrite Forall_forall in Hs. by destruct Hne; apply Hs.
Qed.

(** ** Rows *)

Lemma row_get_app (c : string) (r1 r2 : Row) :
  row_get c (r1 ++ r2)
  = match row_get c r1 with Some v => Some v | None => row_get c r2 end.
Proof.
  induction r1 as [|[c' v] r1 IH]; [done|]. cbn. by case_decide.
Qed.

Lemma row_get_None (c : string) (r : Row) : c ∉ r.*1 → row_get c r = None.
Proof.
  induction r as [|[c' v] r IH]; [done|]. cbn.
  rewrite not_elem_of_cons. intros [? ?]. case_decide; [done|auto].
Qed.

Lemma row_get_fmap {X : Type} (f : X → string) (g : X → cell)
    (l : list X) (x : X) :
  (∀ y, y ∈ l → f y = f x → y = x) → x ∈ l →
  row_get (f x) ((λ y, (f y, g y)) <$> l) = Some (g x).
Proof.
  intros Hinj Hx. induction l as [|y l IH]; [by inv Hx|].
  cbn. case_decide as Hd.
  - symmetry in Hd. apply Hinj in Hd as ->; [done|left].
  - apply IH.
    + intros z ?. apply Hinj. by right.
    + apply elem_of_cons in Hx as [->|]; done.
Qed.

Lemma row_get_labelled (g : string → cell) (cols : list string) (c : string) :
  row_get c ((λ c, (c, g c)) <$> cols)
  = if decide (c ∈ cols) then Some (g c) else None.
Proof.
  case_decide as Hc.
  - by apply (row_get_fmap id g).
  - apply row_get_None. by rewrite <-list_fmap_compose, list_fmap_id.
Qed.

(** ** The slot mapping *)

Lemma enumerate_fold_notin (l : list Z) (s : nat) (m : gmap Z nat) (q : Z) :
  q ∉ l →
  foldl (λ m p, <[p.2 := p.1]> m) m (enumerate s l) !! q = m !! q.
Proof.
  revert s m. induction l as [|x l IH]; intros s m Hq; [done|].
  apply not_elem_of_cons in Hq as [Hne Hq]. cbn.
  rewrite IH by done. by rewrite lookup_insert_ne.
Qed.

Lemma enumerate_fold_lookup (l : list Z) (s i : nat) (m : gmap Z nat) (q : Z) :
  NoDup l → l !! i = Some q →
  foldl (λ m p, <[p.2 := p.1]> m) m (enumerate s l) !! q = Some (s + i).
Proof.
  intros Hnd. revert s i m.
  induction Hnd as [|x l Hx Hnd IH]; intros s i m Hi; [done|].
  cbn. destruct i as [|i]; simplify_eq/=.
  - rewrite enumerate_fold_notin by done.
    by rewrite lookup_insert_eq, Nat.add_0_r.
  - rewrite (IH (S s) i) by done. f_equal. lia.
Qed.

Lemma StronglySorted_lt_of_le (l : list Z) :
  StronglySorted Z.le l → NoDup l → StronglySorted Z.lt l.
Proof.
  induction 1 as [|x l Hl IH Hx]; intros Hnd; [constructor|].
  apply NoDup_cons in Hnd as [Hnx Hnd]. constructor; [auto|].
  rewrite Forall_forall in Hx |- *. intros y Hy.
  specialize (Hx y Hy). assert (x ≠ y) by (by intros ->). lia.
Qed.

Lemma StronglySorted_lookup_lt (l : list Z) (i j : nat) (x y : Z) :
  StronglySorted Z.lt l → l !! i = Some x → l !! j = Some y → i < j →
  (x < y)%Z.
Proof.
  intros Hs. revert i j.
  induction Hs as [|a l Hl IH Ha]; intros i j Hi Hj Hij; [done|].
  destruct j as [|j]; [lia|]. cbn in Hj.
  destruct i as [|i]; simplify_eq/=.
  - rewrite Forall_forall in Ha. apply Ha. by eapply list_elem_of_lookup_2.
  - apply (IH i j); [done..|lia].
Qed.

Section slots.
Implicit Types df : list FlatRecord.

Lemma all_question_ids_Permutation df :
  all_question_ids df ≡ₚ unique (QuestionID <$> df).
Proof. apply merge_sort_Permutation. Qed.

Lemma NoDup_all_question_ids df : NoDup (all_question_ids df).
Proof. rewrite all_question_ids_Permutation. apply NoDup_unique. Qed.

Lemma elem_of_all_question_ids df (q : Z) :
  q ∈ all_question_ids df ↔ q ∈ QuestionID <$> df.
Proof. by rewrite all_question_ids_Permutation, elem_of_unique. Qed.

Lemma all_question_ids_sorted df : StronglySorted Z.lt (all_question_ids df).
Proof.
  apply StronglySorted_lt_of_le; [|apply NoDup_all_question_ids].
  apply (StronglySorted_merge_sort _).
Qed.

Lemma length_all_question_ids df :
  length (all_question_ids df) = size (list_to_set (QuestionID <$> df) : gset Z).
Proof. by rewrite all_question_ids_Permutation, length_unique. Qed.

Lemma all_question_ids_perm df df' :
  df ≡ₚ df' → all_question_ids df = all_question_ids df'.
Proof.
  intros Hp. apply (StronglySorted_unique Z.le).
  - apply (StronglySorted_merge_sort _).
  - apply (StronglySorted_merge_sort _).
  - rewrite !all_question_ids_Permutation.
    apply unique_Permutation. by rewrite Hp.
Qed.

Lemma q_id_to_num_lookup df (q : Z) (k : nat) :
  q_id_to_num df !! q = Some k ↔
  ∃ i, k = S i ∧ all_question_ids df !! i = Some q.
Proof.
  unfold q_id_to_num. split.
  - intros Hk. destruct (decide (q ∈ all_question_ids df)) as [Hq|Hq].
    + apply list_elem_of_lookup_1 in Hq as [i Hi]. exists i. split; [|done].
      rewrite (enumerate_fold_lookup _ 1 i) in Hk
        by auto using NoDup_all_question_ids.
      by simplify_eq/=.
    + by rewrite enumerate_fold_notin in Hk.
  - intros (i & -> & Hi).
    by rewrite (enumerate_fold_lookup _ 1 i)
      by auto using NoDup_all_question_ids.
Qed.

Lemma q_id_to_num_perm df df' : df ≡ₚ df' → q_id_to_num df = q_id_to_num df'.
Proof. intros Hp. unfold q_id_to_num. by rewrite (all_question_ids_perm df df'). Qed.

Lemma QNum_is_Some df (r : FlatRecord) : r ∈ df → is_Some (QNum df r).
Proof.
  intros Hr. assert (QuestionID r ∈ all_question_ids df) as Hq.
  { apply elem_of_all_question_ids, list_elem_of_fmap. eauto. }
  apply list_elem_of_lookup_1 in Hq as [i Hi]. exists (S i).
  apply q_id_to_num_lookup. eauto.
Qed.

Lemma QNum_range df (r : FlatRecord) (k : nat) :
  QNum df r = Some k → 1 ≤ k ≤ length (all_question_ids df).
Proof.
  intros (i & -> & Hi)%q_id_to_num_lookup.
  apply lookup_lt_Some in Hi. lia.
Qed.

Lemma QNum_inj df (r r' : FlatRecord) (k : nat) :
  QNum df r = Some k → QNum df r' = Some k → QuestionID r = QuestionID r'.
Proof.
  intros (i & -> & Hi)%q_id_to_num_lookup (j & [= <-] & Hj)%q_id_to_num_lookup.
  congruence.
Qed.
End slots.

(** ** The pivot table *)

Section pivot_table.
Implicit Types (df : list FlatRecord) (r : FlatRecord) (sid : cell)
  (k : nat) (v : ValueCol).

Lemma group_key_Some df r sid k :
  group_key df r = Some (sid, k) ↔
  StudentId r = sid ∧ sid ≠ NaN ∧ QNum df r = Some k.
Proof.
  unfold group_key. destruct (StudentId r) eqn:Hs; cbn.
  - split; [done|]. by intros (<- & ? & _).
  - destruct (QNum df r); cbn; split.
    + by intros [= <- <-].
    + by intros (<- & _ & [= <-]).
    + done.
    + by intros (_ & _ & ?).
  - destruct (QNum df r); cbn; split.
    + by intros [= <- <-].
    + by intros (<- & _ & [= <-]).
    + done.
    + by intros (_ & _ & ?).
Qed.

Lemma agg_notna df sid k v :
  agg df (sid, k) v ≠ NaN ↔
  ∃ r, r ∈ df ∧ StudentId r = sid ∧ sid ≠ NaN ∧ QNum df r = Some k
       ∧ value_of v r ≠ NaN.
Proof.
  unfold agg, group. rewrite first_notna. split.
  - intros (c & (r & -> & Hr)%list_elem_of_fmap & Hc).
    apply list_elem_of_filter in Hr as [Hk%group_key_Some Hr].
    exists r. tauto.
  - intros (r & Hr & Hs & Hn & Hq & Hv). exists (value_of v r).
    split; [|done]. apply list_elem_of_fmap. exists r. split; [done|].
    apply list_elem_of_filter. split; [|done]. by apply group_key_Some.
Qed.

Lemma agg_question_id df r k :
  r ∈ df → StudentId r ≠ NaN → QNum df r = Some k →
  agg df (StudentId r, k) VQuestionID ≠ NaN.
Proof. intros. apply agg_notna. by exists r. Qed.

Lemma elem_of_agged_keys df sid k :
  (sid, k) ∈ agged_keys df ↔
  ∃ r, r ∈ df ∧ StudentId r = sid ∧ sid ≠ NaN ∧ QNum df r = Some k.
Proof.
  unfold agged_keys.
  rewrite list_elem_of_filter, elem_of_unique, list_elem_of_omap.
  setoid_rewrite group_key_Some. split.
  - intros [_ (r & ? & ?)]. by exists r.
  - intros (r & Hr & <- & Hn & Hq). split; [|by exists r].
    apply Exists_exists. exists VQuestionID. split.
    + unfold pivot_keys. left.
    + by apply agg_question_id.
Qed.

Lemma elem_of_pivot_index df sid :
  sid ∈ pivot_index df ↔ sid ≠ NaN ∧ ∃ r, r ∈ df ∧ StudentId r = sid.
Proof.
  unfold pivot_index. rewrite elem_of_unique, list_elem_of_fmap. split.
  - intros ([sid' k] & -> & (r & ? & ? & ? & ?)%elem_of_agged_keys). eauto.
  - intros (Hn & r & Hr & <-).
    destruct (QNum_is_Some df r Hr) as [k Hk].
    exists (StudentId r, k). split; [done|].
    apply elem_of_agged_keys. by exists r.
Qed.

Lemma NoDup_pivot_index df : NoDup (pivot_index df).
Proof. apply NoDup_unique. Qed.

Lemma elem_of_pivot_q_nums df k :
  k ∈ pivot_q_nums df ↔
  ∃ r, r ∈ df ∧ StudentId r ≠ NaN ∧ QNum df r = Some k.
Proof.
  unfold pivot_q_nums.
  rewrite merge_sort_Permutation, elem_of_unique, list_elem_of_fmap. split.
  - intros ([sid k'] & -> & (r & ? & <- & ? & ?)%elem_of_agged_keys). eauto.
  - intros (r & Hr & Hn & Hq). exists (StudentId r, k). split; [done|].
    apply elem_of_agged_keys. by exists r.
Qed.

Lemma elem_of_pivot_keys_sorted v : v ∈ pivot_keys_sorted.
Proof. unfold pivot_keys_sorted. destruct v; set_solver. Qed.

Lemma elem_of_pivot_keys v : v ∈ pivot_keys.
Proof. unfold pivot_keys. destruct v; set_solver. Qed.

Lemma has_data_exists df (col : ValueCol * nat) :
  has_data df col ↔
  ∃ r, r ∈ df ∧ StudentId r ≠ NaN ∧ QNum df r = Some col.2
       ∧ value_of col.1 r ≠ NaN.
Proof. unfold has_data. by rewrite Exists_exists. Qed.

Lemma elem_of_pivot_columns df (col : ValueCol * nat) :
  col ∈ pivot_columns df ↔ has_data df col.
Proof.
  destruct col as [v k]. unfold pivot_columns.
  rewrite has_data_exists, list_elem_of_filter, Exists_exists,
    list_elem_of_bind. cbn [fst snd]. split.
  - intros [(sid & _ & (r & ? & <- & ? & ? & ?)%agg_notna) _]. by exists r.
  - intros (r & Hr & Hn & Hq & Hv). split.
    + exists (StudentId r). split.
      * apply elem_of_pivot_index. eauto.
      * apply agg_notna. by exists r.
    + exists v. split; [|apply elem_of_pivot_keys_sorted].
      apply list_elem_of_fmap. exists k. split; [done|].
      apply elem_of_pivot_q_nums. by exists r.
Qed.

Lemma agg_outside_index df sid k v :
  sid ∉ pivot_index df → agg df (sid, k) v = NaN.
Proof.
  intros Hs. destruct (decide (agg df (sid, k) v = NaN)) as [|Hne]; [done|].
  apply agg_notna in Hne as (r & ? & ? & ? & _).
  destruct Hs. apply elem_of_pivot_index. eauto.
Qed.
End pivot_table.

(** ** The merge with the student base data *)

Lemma filter_fmap_pre {X Y : Type} (f : X → Y) (P : Y → Prop)
    `{∀ y, Decision (P y)} (l : list X) :
  filter P (f <$> l) = f <$> filter (λ x, P (f x)) l.
Proof.
  induction l as [|x l IH]; [done|].
  rewrite fmap_cons, !filter_cons. case_decide; by rewrite ?fmap_cons, IH.
Qed.

Lemma filter_all {X : Type} (P : X → Prop) `{∀ x, Decision (P x)}
    (l : list X) :
  Forall P l → filter P l = l.
Proof.
  induction 1 as [|x l Hx _ IH]; [done|].
  by rewrite filter_cons, decide_True, IH.
Qed.

Lemma filter_eq_NoDup {X : Type} `{EqDecision X} (a : X) (l : list X) :
  NoDup l → filter (λ x, x = a) l = if decide (a ∈ l) then [a] else [].
Proof.
  induction 1 as [|x l Hx Hnd IH]; [done|].
  rewrite filter_cons, IH. destruct (decide (x = a)) as [->|Hne].
  - rewrite decide_False, decide_True by (done || left). done.
  - destruct (decide (a ∈ l)).
    + by rewrite decide_True by by right.
    + rewrite decide_False; [done|]. rewrite not_elem_of_cons. split; done.
Qed.

Section merge.
Implicit Types (df : list FlatRecord) (s : FlatRecord).

Lemma row_get_student_id s : row_get "StudentId" (student_row s) = Some (StudentId s).
Proof. reflexivity. Qed.

Lemma new_col_name_ne_StudentId (col : ValueCol * nat) :
  new_col_name col ≠ "StudentId".
Proof.
  intros H. apply (new_col_name_not_student col). rewrite H.
  unfold STUDENT_COLUMNS. set_solver.
Qed.

Lemma pivoted_right_cols df :
  filter (λ c, c ≠ "StudentId") (columns (pivoted df))
  = new_col_name <$> pivot_columns df.
Proof.
  cbn [pivoted columns]. rewrite filter_cons, decide_False by (by intros []).
  apply filter_all, Forall_fmap, Forall_forall. intros col _.
  apply new_col_name_ne_StudentId.
Qed.

Lemma merge_columns df :
  columns (merge_left "StudentId" (students_df df) (pivoted df))
  = student_cols ++ (new_col_name <$> pivot_columns df).
Proof. unfold merge_left. cbn [columns]. by rewrite pivoted_right_cols. Qed.

Lemma merge_matches df s :
  match filter (λ rrow : Row, row_get "StudentId" rrow
                              = row_get "StudentId" (student_row s))
          (rows (pivoted df)) with
  | [] => [student_row s ++
           ((λ c, (c, NaN)) <$> (new_col_name <$> pivot_columns df))]
  | matches =>
      (λ rrow : Row, student_row s
                     ++ filter (λ p, p.1 ≠ "StudentId") rrow) <$> matches
  end = [merged_row df s].
Proof.
  unfold pivoted. cbn [rows]. rewrite filter_fmap_pre.
  rewrite (list_filter_iff _ (λ sid, sid = StudentId s)); last first.
  { intros sid. cbn [row_get]. rewrite decide_True by done.
    rewrite row_get_student_id. split; congruence. }
  rewrite filter_eq_NoDup by apply NoDup_pivot_index.
  unfold merged_row. case_decide as Hin; cbn [fmap list_fmap].
  - rewrite filter_cons, decide_False by (by intros []).
    rewrite filter_all; [done|].
    apply Forall_fmap, Forall_forall. intros col _.
    apply new_col_name_ne_StudentId.
  - do 2 f_equal. rewrite <-list_fmap_compose.
    apply Forall_fmap_ext_1, Forall_forall. intros col _. cbn.
    by rewrite agg_outside_index.
Qed.

Lemma merge_rows df :
  rows (merge_left "StudentId" (students_df df) (pivoted df))
  = merged_row df <$> drop_duplicates StudentId df.
Proof.
  unfold merge_left. cbn [rows]. rewrite pivoted_right_cols.
  unfold students_df. cbn [rows]. rewrite list_fmap_bind.
  induction (drop_duplicates StudentId df) as [|s l IH]; [done|].
  rewrite bind_cons, fmap_cons, IH. cbn [compose].
  by rewrite merge_matches.
Qed.
End merge.

(** ** Selecting and filling *)

Lemma fill_blanks_fold (cols : list string) (df : DataFrame) :
  let res := foldl (λ df col, assign col (fill_blank col) df) df cols in
  columns res = columns df ∧
  rows res
  = (λ r : Row, (λ p, if decide (p.1 ∈ cols)
                     then (p.1, fill_blank p.1 p.2) else p) <$> r)
      <$> rows df.
Proof.
  revert df. induction cols as [|c cols IH]; intros df; cbn zeta.
  - split; [done|]. cbn. symmetry. etrans; [|apply list_fmap_id].
    apply Forall_fmap_ext_1, Forall_forall. intros r _.
    etrans; [|apply list_fmap_id].
    apply Forall_fmap_ext_1, Forall_forall. intros p _.
    rewrite decide_False; [done|]. apply not_elem_of_nil.
  - cbn [foldl]. destruct (IH (assign c (fill_blank c) df)) as [Hc Hr].
    split; [by rewrite Hc|]. rewrite Hr. cbn [assign rows].
    rewrite <-list_fmap_compose.
    apply Forall_fmap_ext_1, Forall_forall. intros r _. cbn [compose].
    rewrite <-list_fmap_compose.
    apply Forall_fmap_ext_1, Forall_forall. intros [c' v] _. cbn.
    destruct (decide (c' = c)) as [->|Hne]; cbn.
    + rewrite (decide_True (P:=c ∈ c :: cols)) by left.
      case_decide; [|done]. by rewrite fill_blank_idemp.
    + destruct (decide (c' ∈ cols)).
      * by rewrite decide_True by by right.
      * rewrite decide_False; [done|]. by rewrite not_elem_of_cons.
Qed.

Lemma fill_blanks_select (cols : list string) (df : DataFrame) :
  fill_blanks (select cols df)
  = mkDataFrame cols
      ((λ r, (λ c, (c, fill_blank c (default NaN (row_get c r)))) <$> cols)
         <$> rows df).
Proof.
  unfold fill_blanks.
  destruct (fill_blanks_fold (columns (select cols df)) (select cols df))
    as [Hc Hr].
  destruct (foldl _ _ _) as [cs rs]. cbn in Hc, Hr. subst cs rs. f_equal.
  rewrite <-list_fmap_compose.
  apply Forall_fmap_ext_1, Forall_forall. intros r _. cbn.
  rewrite <-list_fmap_compose.
  apply Forall_fmap_ext_1, Forall_forall. intros c Hc. cbn.
  by rewrite decide_True.
Qed.

(** ** The report *)

Section report.
Implicit Types (df : list FlatRecord) (s r : FlatRecord)
  (col : ValueCol * nat).

Lemma new_col_name_not_student_cols col : new_col_name col ∉ student_cols.
Proof.
  unfold new_col_name, student_cols. rewrite append_cons, append_nil_l.
  rewrite !elem_of_cons, elem_of_nil. intros H.
  repeat (destruct H as [H|H]; [discriminate H|]). done.
Qed.

Lemma STUDENT_COLUMNS_student_cols (c : string) :
  c ∈ STUDENT_COLUMNS ↔ c ∈ student_cols.
Proof.
  unfold STUDENT_COLUMNS, student_cols.
  rewrite !elem_of_cons, !elem_of_nil. tauto.
Qed.

Lemma new_col_name_in_merge df col :
  new_col_name col ∈ student_cols ++ (new_col_name <$> pivot_columns df)
  ↔ has_data df col.
Proof.
  rewrite elem_of_app, list_elem_of_fmap, <-elem_of_pivot_columns. split.
  - intros [?%new_col_name_not_student_cols|(col' & ->%new_col_name_inj & ?)];
      done.
  - intros ?. right. by exists col.
Qed.

Lemma has_data_range df col :
  has_data df col → 1 ≤ col.2 ≤ length (all_question_ids df).
Proof.
  intros (r & _ & _ & Hq & _)%has_data_exists. by eapply QNum_range.
Qed.

Lemma block_names (idx : nat) :
  (λ c, ("Q" +:+ str_nat idx +:+ "_") +:+ c) <$> QUESTION_COLUMNS
  = new_col_name <$> question_block idx.
Proof.
  unfold question_block. rewrite <-list_fmap_compose.
  change QUESTION_COLUMNS with (pivot_cols <$> pivot_keys).
  rewrite <-list_fmap_compose.
  apply Forall_fmap_ext_1, Forall_forall. intros v _.
  unfold new_col_name. cbn. by rewrite !append_assoc.
Qed.

Lemma final_columns_report df :
  final_columns (merge_left "StudentId" (students_df df) (pivoted df))
    (length (all_question_ids df))
  = report_columns df.
Proof.
  unfold final_columns, report_columns, question_total.
  rewrite merge_columns, length_all_question_ids.
  set (N := size _).
  assert (∀ idx,
    filter (λ c, c ∈ student_cols ++ (new_col_name <$> pivot_columns df))
      ((λ c, ("Q" +:+ str_nat idx +:+ "_") +:+ c) <$> QUESTION_COLUMNS)
    = new_col_name <$> filter (has_data df) (question_block idx)) as Hblock.
  { intros idx. rewrite block_names, filter_fmap_pre. f_equal.
    apply list_filter_iff. intros col. apply new_col_name_in_merge. }
  rewrite (list_bind_ext _
    (λ k, new_col_name <$> filter (has_data df) (question_block k))
    _ (seq 1 N) Hblock eq_refl).
  rewrite filter_app.
  rewrite (filter_all _ STUDENT_COLUMNS), (filter_all _ (_ ≫= _)); [done|..].
  - apply Forall_forall. intros c.
    intros (k & (col & -> & Hcol)%list_elem_of_fmap & _)%list_elem_of_bind.
    apply list_elem_of_filter in Hcol as [Hd _].
    by apply new_col_name_in_merge.
  - apply Forall_forall. intros c Hc.
    apply elem_of_app. left. by apply (proj1 (STUDENT_COLUMNS_student_cols c)).
Qed.

(** What [pivot_student_data] returns for a non-empty frame. *)
Lemma pivot_student_data_report df :
  df ≠ [] →
  pivot_student_data df
  = mkDataFrame (report_columns df)
      (report_row df <$> drop_duplicates StudentId df).
Proof.
  intros Hne. destruct df as [|r0 df0]; [done|].
  unfold pivot_student_data. cbn zeta.
  rewrite final_columns_report, fill_blanks_select, merge_rows.
  by rewrite <-list_fmap_compose.
Qed.

Lemma elem_of_report_columns df (c : string) :
  c ∈ report_columns df ↔
  c ∈ STUDENT_COLUMNS ∨ ∃ col, c = new_col_name col ∧ has_data df col.
Proof.
  unfold report_columns. rewrite elem_of_app, list_elem_of_bind.
  apply or_iff_compat_l. split.
  - intros (k & (col & -> & [? _]%list_elem_of_filter)%list_elem_of_fmap & _).
    eauto.
  - intros (col & -> & Hd). exists col.2. split.
    + apply list_elem_of_fmap. exists col. split; [done|].
      apply list_elem_of_filter. split; [done|].
      unfold question_block. apply list_elem_of_fmap. exists col.1.
      split; [by destruct col|apply elem_of_pivot_keys].
    + apply has_data_range in Hd. unfold question_total.
      rewrite <-length_all_question_ids. apply elem_of_seq. lia.
Qed.

Lemma new_col_name_in_report df col :
  new_col_name col ∈ report_columns df ↔ has_data df col.
Proof.
  rewrite elem_of_report_columns. split.
  - intros [?%new_col_name_not_student|(col' & ->%new_col_name_inj & ?)];
      done.
  - eauto.
Qed.

Lemma row_get_report_row df s (c : string) :
  row_get c (report_row df s)
  = if decide (c ∈ report_columns df)
    then Some (fill_blank c (default NaN (row_get c (merged_row df s))))
    else None.
Proof. unfold report_row. apply row_get_labelled. Qed.

Lemma row_get_merged_question df s col :
  col ∈ pivot_columns df →
  row_get (new_col_name col) (merged_row df s)
  = Some (agg df (StudentId s, col.2) col.1).
Proof.
  intros Hcol. unfold merged_row. rewrite row_get_app.
  rewrite (row_get_None _ (student_row s))
    by apply new_col_name_not_student_cols.
  apply (row_get_fmap new_col_name
           (λ col, agg df (StudentId s, col.2) col.1)); [|done].
  intros col' _ Heq. by apply new_col_name_inj.
Qed.

(** The cell of a question column that is present. *)
Lemma report_row_question df s col :
  has_data df col →
  row_get (new_col_name col) (report_row df s)
  = Some (fillna (default_fill col.1) (agg df (StudentId s, col.2) col.1)).
Proof.
  intros Hd. rewrite row_get_report_row.
  rewrite decide_True by by apply new_col_name_in_report.
  rewrite row_get_merged_question by by apply elem_of_pivot_columns.
  by rewrite fill_blank_new_col.
Qed.

(** No cell under a question column that is absent. *)
Lemma report_row_absent df s col :
  ¬ has_data df col → row_get (new_col_name col) (report_row df s) = None.
Proof.
  intros Hd. rewrite row_get_report_row.
  by rewrite decide_False by by rewrite new_col_name_in_report.
Qed.

(** The student cells are those of the student base data, unfilled. *)
Lemma report_row_student_cells df s (c : string) :
  c ∈ STUDENT_COLUMNS →
  row_get c (report_row df s) = row_get c (student_row s).
Proof.
  intros Hc. rewrite row_get_report_row.
  rewrite decide_True by (apply elem_of_report_columns; by left).
  rewrite fill_blank_student by done.
  unfold merged_row. rewrite row_get_app.
  unfold STUDENT_COLUMNS in Hc. rewrite !elem_of_cons, elem_of_nil in Hc.
  repeat (destruct Hc as [->|Hc]; [reflexivity|]). done.
Qed.

Lemma report_row_student_id df s :
  row_get "StudentId" (report_row df s) = Some (StudentId s).
Proof.
  rewrite report_row_student_cells; [done|].
  unfold STUDENT_COLUMNS. do 3 right. left.
Qed.
End report.

(** ** Rows of the report *)

Lemma pivot_rows_inv (df : list FlatRecord) (row : Row) :
  row ∈ rows (pivot_student_data df) →
  df ≠ [] ∧ ∃ s, s ∈ df ∧ row = report_row df s.
Proof.
  destruct (decide (df = [])) as [->|Hne]; [by intros ?%elem_of_nil|].
  rewrite pivot_student_data_report by done. cbn [rows].
  intros (s & -> & Hs%elem_of_drop_duplicates)%list_elem_of_fmap. eauto.
Qed.

Lemma length_filter_fmap {X Y : Type} (f : X → Y) (P : Y → Prop)
    `{∀ y, Decision (P y)} (l : list X) :
  length (filter (λ x, P (f x)) l) = length (filter P (f <$> l)).
Proof. by rewrite filter_fmap_pre, length_fmap. Qed.

Lemma pivot_one_row_per_student (df : list FlatRecord) (r : FlatRecord) :
  r ∈ df →
  length (filter (λ row, row_get "StudentId" row = Some (StudentId r))
            (rows (pivot_student_data df))) = 1.
Proof.
  intros Hr. assert (df ≠ []) as Hne by (by intros ->; inv Hr).
  rewrite pivot_student_data_report by done. cbn [rows].
  rewrite filter_fmap_pre, length_fmap.
  rewrite (list_filter_iff _ (λ s, StudentId s = StudentId r)); last first.
  { intros s. rewrite report_row_student_id. split; congruence. }
  pose proof (length_filter_fmap StudentId (λ k, k = StudentId r)
                (drop_duplicates StudentId df)) as Hlen.
  cbn beta in Hlen. rewrite Hlen.
  rewrite drop_duplicates_keys, filter_eq_NoDup by apply NoDup_unique.
  rewrite decide_True; [done|].
  apply elem_of_unique, list_elem_of_fmap. eauto.
Qed.

(** C1.  The report has as many rows as the input has distinct StudentId
    values (none for the empty input), and every StudentId of the input
    heads exactly one row. *)
Theorem pivot_row_count (df : list FlatRecord) :
  length (rows (pivot_student_data df))
  = size (list_to_set (StudentId <$> df) : gset cell)
  ∧ ∀ r, r ∈ df →
      length (filter (λ row, row_get "StudentId" row = Some (StudentId r))
                (rows (pivot_student_data df))) = 1.
Proof.
  split; [|apply pivot_one_row_per_student].
  destruct (decide (df = [])) as [->|Hne]; [done|].
  rewrite pivot_student_data_report by done. cbn [rows].
  rewrite length_fmap, <-(length_fmap StudentId), drop_duplicates_keys.
  apply length_unique.
Qed.

Lemma pivot_row_count_witness :
  length (rows (pivot_student_data scenario)) = 2
  ∧ length (filter (λ row, row_get "StudentId" row = Some (Str "B"))
              (rows (pivot_student_data scenario))) = 1.
Proof.
  destruct (pivot_row_count scenario) as [Hn Hone]. split.
  - rewrite Hn. vm_compute. reflexivity.
  - apply (Hone (answer "B" 30 "B" 1)). unfold scenario.
    apply list_elem_of_further, list_elem_of_further, list_elem_of_here.
Defined.

(** ** Slots *)

Lemma question_total_perm (df df' : list FlatRecord) :
  df ≡ₚ df' → question_total df' = question_total df.
Proof.
  intros Hp. unfold question_total. f_equal. apply set_eq. intros q.
  by rewrite !elem_of_list_to_set, Hp.
Qed.

Lemma has_data_perm (df df' : list FlatRecord) (col : ValueCol * nat) :
  df ≡ₚ df' → has_data df' col ↔ has_data df col.
Proof.
  intros Hp. rewrite !has_data_exists. unfold QNum.
  rewrite (q_id_to_num_perm df df' Hp). by setoid_rewrite Hp.
Qed.

Lemma report_columns_perm (df df' : list FlatRecord) :
  df ≡ₚ df' → report_columns df' = report_columns df.
Proof.
  intros Hp. unfold report_columns.
  rewrite (question_total_perm df df' Hp). f_equal.
  apply list_bind_ext; [|done]. intros k. f_equal.
  apply list_filter_iff. intros col. by apply has_data_perm.
Qed.

(** ** Cells of the question blocks *)

Section cells.
Implicit Types (df : list FlatRecord) (r s : FlatRecord) (k : nat)
  (v : ValueCol) (row : Row).

Lemma group_same_pair df r k :
  StudentId r ≠ NaN → QNum df r = Some k →
  group df (StudentId r, k) = filter (same_pair r) df.
Proof.
  intros Hn Hq. unfold group. apply list_filter_iff. intros r'.
  rewrite group_key_Some. unfold same_pair. split.
  - intros (Hs & _ & Hq'). split; [done|]. by eapply QNum_inj.
  - intros [Hs Hid]. split; [done|]. split; [done|].
    unfold QNum in *. by rewrite Hid.
Qed.

Lemma agg_same_pair df r k v :
  StudentId r ≠ NaN → QNum df r = Some k →
  agg df (StudentId r, k) v = first (value_of v <$> filter (same_pair r) df).
Proof. intros. unfold agg. by rewrite group_same_pair. Qed.

Lemma filter_none {X : Type} (P : X → Prop) `{∀ x, Decision (P x)}
    (l : list X) :
  Forall (λ x, ¬ P x) l → filter P l = [].
Proof.
  induction 1 as [|x l Hx _ IH]; [done|].
  by rewrite filter_cons, decide_False, IH.
Qed.

Lemma first_of_pair (l1 l2 : list FlatRecord) r v :
  Forall (λ r', ¬ same_pair r r') l1 → value_of v r ≠ NaN →
  first (value_of v <$> filter (same_pair r) (l1 ++ r :: l2)) = value_of v r.
Proof.
  intros Hl1 Hv. rewrite filter_app, filter_none by done.
  rewrite app_nil_l, filter_cons, decide_True by done.
  rewrite fmap_cons, first_cons. by destruct (value_of v r).
Qed.

Lemma first_const (c : cell) (l : list cell) :
  l ≠ [] → Forall (λ x, x = c) l → first l = c.
Proof.
  intros Hne Hl. destruct Hl as [|x l -> Hl]; [done|].
  rewrite first_cons. destruct c; [|done..]. cbn.
  by apply first_all_na.
Qed.

Lemma agg_null_student df k v : agg df (NaN, k) v = NaN.
Proof.
  destruct (decide (agg df (NaN, k) v = NaN)) as [|Hne]; [done|].
  by apply agg_notna in Hne as (r & _ & _ & ? & _).
Qed.

Lemma has_data_of_record df r k v :
  r ∈ df → StudentId r ≠ NaN → QNum df r = Some k → value_of v r ≠ NaN →
  has_data df (v, k).
Proof. intros. apply has_data_exists. by exists r. Qed.

Lemma complete_has_data df k v :
  complete df → 1 ≤ k ≤ question_total df → has_data df (v, k).
Proof.
  unfold question_total. rewrite <-length_all_question_ids.
  intros Hc [Hk1 Hk2]. destruct k as [|i]; [lia|].
  destruct (lookup_lt_is_Some_2 (all_question_ids df) i) as [q Hq]; [lia|].
  assert (q ∈ QuestionID <$> df) as (r & -> & Hr)%list_elem_of_fmap.
  { apply elem_of_all_question_ids. by eapply list_elem_of_lookup_2. }
  unfold complete in Hc. rewrite Forall_forall in Hc.
  destruct (Hc r Hr) as [Hn Hv].
  apply (has_data_of_record df r); [done..| |done].
  apply q_id_to_num_lookup. eauto.
Qed.

(** Every record has its student among the rows kept. *)
Lemma student_of_record df r :
  r ∈ df → ∃ s, s ∈ drop_duplicates StudentId df ∧ StudentId s = StudentId r.
Proof.
  intros Hr.
  assert (StudentId r ∈ StudentId <$> drop_duplicates StudentId df)
    as (s & Heq & Hs)%list_elem_of_fmap.
  { rewrite drop_duplicates_keys. apply elem_of_unique.
    by apply list_elem_of_fmap_2. }
  eauto.
Qed.

(** The id of a question under its slot, in the row of a student who has
    a record for it. *)
Lemma question_id_cell df s r k :
  r ∈ df → StudentId r ≠ NaN → StudentId s = StudentId r →
  QNum df r = Some k →
  row_get (new_col_name (VQuestionID, k)) (report_row df s)
  = Some (Num (QuestionID r)).
Proof.
  intros Hr Hn Hsid Hq.
  rewrite report_row_question by (by apply (has_data_of_record df r)).
  cbn [fst snd]. rewrite Hsid, agg_same_pair by done.
  rewrite (first_const (Num (QuestionID r))); [done| |].
  - assert (r ∈ filter (same_pair r) df) as Hin.
    { apply list_elem_of_filter. by split. }
    intros Hnil%fmap_nil_inv. rewrite Hnil in Hin. by inv Hin.
  - apply Forall_fmap, Forall_forall.
    intros r' [[_ Hid] _]%list_elem_of_filter. cbn. by rewrite Hid.
Qed.

End cells.

(** ** The slot mapping in the report *)

(** C2.  The slot mapping numbers the distinct question ids 1..N in
    ascending order of id, and neither the mapping nor the columns of the
    report depend on the order of the input rows.  The report carries the
    mapping: the record of a known student for the question of id q, which
    has slot k, puts the column Qk_QuestionId into the report and the
    number q under it in the row of that student (for records within the
    ranges of pandas); and a column Qk_field of the report is there for a
    record whose question has slot k. *)
Theorem slot_assignment_deterministic (df : list FlatRecord) :
  (∀ q, is_Some (q_id_to_num df !! q) ↔ q ∈ QuestionID <$> df)
  ∧ (∀ k, (∃ q, q_id_to_num df !! q = Some k) ↔ 1 ≤ k ≤ question_total df)
  ∧ (∀ q1 q2 k1 k2,
       q_id_to_num df !! q1 = Some k1 → q_id_to_num df !! q2 = Some k2 →
       (q1 < q2)%Z ↔ k1 < k2)
  ∧ (∀ df', df ≡ₚ df' →
       q_id_to_num df' = q_id_to_num df
       ∧ columns (pivot_student_data df') = columns (pivot_student_data df))
  ∧ (Forall representable df →
     ∀ r k, r ∈ df → StudentId r ≠ NaN →
       q_id_to_num df !! QuestionID r = Some k →
       "Q" +:+ str_nat k +:+ "_QuestionId" ∈ columns (pivot_student_data df)
       ∧ ∃ row, row ∈ rows (pivot_student_data df)
                ∧ row_get "StudentId" row = Some (StudentId r)
                ∧ row_get ("Q" +:+ str_nat k +:+ "_QuestionId") row
                  = Some (Num (QuestionID r)))
  ∧ (∀ v k, new_col_name (v, k) ∈ columns (pivot_student_data df) →
       ∃ r, r ∈ df ∧ StudentId r ≠ NaN
            ∧ q_id_to_num df !! QuestionID r = Some k
            ∧ value_of v r ≠ NaN).
Proof.
  split; [|split; [|split; [|split; [|split]]]].
  - intros q. rewrite <-elem_of_all_question_ids. split.
    + intros [k (i & _ & Hi)%q_id_to_num_lookup].
      by eapply list_elem_of_lookup_2.
    + intros [i Hi]%list_elem_of_lookup_1. exists (S i).
      apply q_id_to_num_lookup. eauto.
  - intros k. unfold question_total. rewrite <-length_all_question_ids. split.
    + intros [q (i & -> & Hi%lookup_lt_Some)%q_id_to_num_lookup]. lia.
    + intros [Hk1 Hk2]. destruct k as [|i]; [lia|].
      destruct (lookup_lt_is_Some_2 (all_question_ids df) i) as [q Hq]; [lia|].
      exists q. apply q_id_to_num_lookup. eauto.
  - intros q1 q2 k1 k2 (i1 & -> & H1)%q_id_to_num_lookup
      (i2 & -> & H2)%q_id_to_num_lookup.
    pose proof (all_question_ids_sorted df) as Hs. split.
    + intros Hlt. destruct (decide (i1 < i2)) as [|Hge]; [lia|].
      destruct (decide (i1 = i2)) as [->|Hne]; [simplify_eq; lia|].
      assert (q2 < q1)%Z; [|lia].
      apply (StronglySorted_lookup_lt _ i2 i1 _ _ Hs); [done..|lia].
    + intros Hlt. apply (StronglySorted_lookup_lt _ i1 i2 _ _ Hs); [done..|lia].
  - intros df' Hp. split; [symmetry; by apply q_id_to_num_perm|].
    destruct (decide (df = [])) as [->|Hne].
    { by apply Permutation_nil_l in Hp as ->. }
    assert (df' ≠ []) as Hne'.
    { intros ->. by apply Permutation_nil_r in Hp. }
    rewrite !pivot_student_data_report by done. cbn [columns].
    by apply report_columns_perm.
  - intros _ r k Hr Hn Hk.
    assert (df ≠ []) as Hne by (intros ->; by apply elem_of_nil in Hr).
    assert (has_data df (VQuestionID, k)) as Hd
      by (by apply (has_data_of_record df r)).
    destruct (student_of_record df r Hr) as (s & Hs & Hsid).
    rewrite pivot_student_data_report by done. cbn [columns rows]. split.
    + by apply (new_col_name_in_report df (VQuestionID, k)).
    + exists (report_row df s). split; [by apply list_elem_of_fmap_2|].
      split; [by rewrite report_row_student_id, Hsid|].
      by apply (question_id_cell df s r k).
  - intros v k Hc.
    destruct (decide (df = [])) as [->|Hne]; [by apply elem_of_nil in Hc|].
    rewrite pivot_student_data_report in Hc by done. cbn [columns] in Hc.
    by apply new_col_name_in_report, has_data_exists in Hc.
Qed.

Lemma slot_assignment_deterministic_witness :
  (q_id_to_num (reverse scenario) = q_id_to_num scenario
   ∧ columns (pivot_student_data (reverse scenario))
     = columns (pivot_student_data scenario))
  ∧ "Q3_QuestionId" ∈ columns (pivot_student_data scenario)
  ∧ ∃ row, row ∈ rows (pivot_student_data scenario)
           ∧ row_get "StudentId" row = Some (Str "A")
           ∧ row_get "Q3_QuestionId" row = Some (Num 50).
Proof.
  destruct (slot_assignment_deterministic scenario)
    as (_ & _ & _ & Hperm & Hcell & _).
  split.
  - apply Hperm. symmetry. apply reverse_Permutation.
  - refine (Hcell _ (answer "A" 50 "C" 0) 3 _ _ _).
    + apply (bool_decide_unpack _). by vm_compute.
    + left.
    + discriminate.
    + vm_compute. reflexivity.
Defined.

(** ** Default fill *)

(** C3, as written, fails: question 10 has no subject on record, so the
    report has no Q1_Subject column, and the row of student B, who has no
    record for question 10, shows no cell for it. *)
Lemma default_block_counterexample : ¬ default_block_complete no_subject_input.
Proof.
  intros H.
  pose (rowB := report_row no_subject_input (answer "B" 20 "C" 0)).
  assert (rows (pivot_student_data no_subject_input) !! 1 = Some rowB) as Hin
    by (vm_compute; reflexivity).
  apply list_elem_of_lookup_2 in Hin.
  specialize (H rowB 1 VSubject Hin).
  assert (row_get (new_col_name (VSubject, 1)) rowB = Some (default_fill VSubject))
    as Hcell; [|by vm_compute in Hcell].
  apply H.
  - vm_compute. lia.
  - intros r Hr Hs Hq. apply list_elem_of_In in Hr.
    destruct Hr as [<-|[<-|[]]]; by vm_compute in Hs, Hq.
Qed.

(** C3, amended.  In the row of a student without a record for the
    question of slot [k], every column of the slot's block that is present
    holds its default.  A column of the block is present exactly when some
    record of a known student for that question carries a value in the
    field; all of them are present when the input has no null student id
    and no null question field. *)
Theorem default_fill_present_columns (df : list FlatRecord) (row : Row)
    (k : nat) (v : ValueCol) :
  row ∈ rows (pivot_student_data df) →
  no_record df row k →
  (new_col_name (v, k) ∈ columns (pivot_student_data df) ↔ has_data df (v, k))
  ∧ (new_col_name (v, k) ∈ columns (pivot_student_data df) →
     row_get (new_col_name (v, k)) row = Some (default_fill v))
  ∧ (complete df → 1 ≤ k ≤ question_total df →
     new_col_name (v, k) ∈ columns (pivot_student_data df)).
Proof.
  intros (Hne & s & Hs & ->)%pivot_rows_inv Hno.
  rewrite pivot_student_data_report by done. cbn [columns].
  rewrite new_col_name_in_report. split; [done|]. split.
  - intros Hd. rewrite report_row_question by done. cbn [fst snd].
    destruct (decide (agg df (StudentId s, k) v = NaN)) as [->|Hagg]; [done|].
    apply agg_notna in Hagg as (r & Hr & Heq & _ & Hq & _).
    destruct (Hno r Hr); [|done].
    by rewrite report_row_student_id, Heq.
  - apply complete_has_data.
Qed.

Lemma default_fill_present_columns_witness :
  ∃ row, rows (pivot_student_data scenario) !! 1 = Some row
         ∧ row_get "Q1_Subject" row = Some (Str "N/A").
Proof.
  exists (report_row scenario (answer "B" 30 "B" 1)).
  split; [vm_compute; reflexivity|].
  refine (proj1 (proj2 (default_fill_present_columns scenario _ 1 VSubject _ _)) _).
  - row_at 1.
  - intros r Hr Hs Hq. apply list_elem_of_In in Hr.
    destruct Hr as [<-|[<-|[<-|[]]]]; vm_compute in Hs, Hq; discriminate.
  - apply list_elem_of_In. vm_compute. tauto.
Defined.

(** ** Blank answers *)

Lemma QNum_single (r : FlatRecord) : QNum [r] r = Some 1.
Proof.
  unfold QNum, q_id_to_num.
  change (all_question_ids [r]) with [QuestionID r]. cbn.
  apply lookup_insert_eq.
Qed.

(** C4, as written, fails: the pivot leaves an empty answer as it is. *)
Lemma blank_answer_counterexample : ¬ blank_answer_replaced blank_answer_input.
Proof.
  intros H.
  pose (row := report_row [blank_answer_input] blank_answer_input).
  assert (row_get "Q1_StudentAnswer" row = Some (Str "Not Answered")) as Hcell;
    [|by vm_compute in Hcell].
  apply H; [done|].
  row_at 0.
Qed.

(** C4, amended.  For one record of a known student the report shows the
    record's answer under Q1_StudentAnswer unchanged, the empty string
    included; a blank answer reads "Not Answered" because the query's CASE
    expression has replaced it before the pivot. *)
Theorem single_answer_kept (r : FlatRecord) :
  StudentId r ≠ NaN →
  ∃ row, rows (pivot_student_data [r]) = [row]
    ∧ (∀ s, StudentAnswer r = Str s →
            row_get "Q1_StudentAnswer" row = Some (Str s))
    ∧ (∀ ua, ua = None ∨ ua = Some "" →
             StudentAnswer r = query_student_answer ua →
             row_get "Q1_StudentAnswer" row = Some (Str "Not Answered")).
Proof.
  intros Hn. exists (report_row [r] r).
  assert (∀ s, StudentAnswer r = Str s →
            row_get "Q1_StudentAnswer" (report_row [r] r) = Some (Str s))
    as Hkept.
  { intros s Hs.
    change "Q1_StudentAnswer" with (new_col_name (VStudentAnswer, 1)).
    rewrite report_row_question; last first.
    { apply (has_data_of_record [r] r); [left|done|apply QNum_single|].
      cbn. by rewrite Hs. }
    cbn [fst snd]. rewrite agg_same_pair by auto using QNum_single.
    pose proof (first_of_pair [] [] r VStudentAnswer) as Hfirst.
    cbn [app] in Hfirst. rewrite Hfirst; [|done|]; cbn; by rewrite Hs. }
  split; [by rewrite pivot_student_data_report|]. split; [done|].
  intros ua [->| ->] Hs; by apply Hkept.
Qed.

Lemma single_answer_kept_witness :
  ∃ row, rows (pivot_student_data [blank_answer_input]) = [row]
         ∧ row_get "Q1_StudentAnswer" row = Some (Str "").
Proof.
  destruct (single_answer_kept blank_answer_input) as (row & Hrows & Hkept & _);
    [done|].
  exists row. split; [done|]. by apply Hkept.
Defined.

(** ** Duplicates *)

(** C5, as written, fails: the first record of the pair has no score, and
    the report shows the score of the second. *)
Lemma first_record_counterexample : ¬ first_record_wins duplicate_input.
Proof.
  intros H.
  pose (r1 := with_score NaN (answer "A" 10 "B" 0)).
  pose (row := report_row duplicate_input r1).
  assert (row_get (new_col_name (VScore, 1)) row = Some (value_of VScore r1)
          ∨ row_get (new_col_name (VScore, 1)) row
            = Some (fillna (default_fill VScore) (value_of VScore r1)))
    as [Hcell|Hcell]; [|by vm_compute in Hcell..].
  apply (H [] r1 [answer "A" 10 "B" 5]); [done|constructor| |done..].
  row_at 0.
Qed.

(** C5, amended.  Among the records of one known student for one question,
    each field of the report shows the first non-null value in record
    order; it is the value of the first record whenever that one is not
    null.  The numbers of the field are such as a float holds exactly: the
    column of a slot that some student lacks is a column of floats. *)
Theorem first_valid_value_wins (df l1 l2 : list FlatRecord) (r : FlatRecord)
    (row : Row) (k : nat) (v : ValueCol) :
  df = l1 ++ r :: l2 →
  Forall (λ r', ¬ same_pair r r') l1 →
  StudentId r ≠ NaN →
  Forall (λ r', exact (value_of v r')) df →
  row ∈ rows (pivot_student_data df) →
  row_get "StudentId" row = Some (StudentId r) →
  QNum df r = Some k →
  (value_of v r ≠ NaN →
   row_get (new_col_name (v, k)) row = Some (value_of v r))
  ∧ (has_data df (v, k) →
     row_get (new_col_name (v, k)) row
     = Some (fillna (default_fill v)
               (first (value_of v <$> filter (same_pair r) df)))).
Proof.
  intros Hdf Hl1 Hn _ (Hne & s & Hs & ->)%pivot_rows_inv Hsid Hq.
  rewrite report_row_student_id in Hsid. injection Hsid as Hsid.
  assert (has_data df (v, k) →
    row_get (new_col_name (v, k)) (report_row df s)
    = Some (fillna (default_fill v)
              (first (value_of v <$> filter (same_pair r) df)))) as Hcell.
  { intros Hd. rewrite report_row_question by done. cbn [fst snd].
    by rewrite Hsid, agg_same_pair. }
  split; [|done]. intros Hv. rewrite Hcell; last first.
  { apply (has_data_of_record df r); [|done..]. subst df.
    apply elem_of_app. right. left. }
  subst df. rewrite first_of_pair by done. by destruct (value_of v r).
Qed.

Lemma first_valid_value_wins_witness :
  ∃ row, rows (pivot_student_data duplicate_input) !! 0 = Some row
         ∧ row_get "Q1_StudentAnswer" row = Some (Str "B")
         ∧ row_get "Q1_Score" row = Some (Num 5).
Proof.
  pose (r1 := with_score NaN (answer "A" 10 "B" 0)).
  exists (report_row duplicate_input r1).
  split; [vm_compute; reflexivity|].
  assert (report_row duplicate_input r1 ∈ rows (pivot_student_data duplicate_input))
    as Hin by (row_at 0).
  split.
  - refine (proj1 (first_valid_value_wins duplicate_input [] _ r1 _ 1
                     VStudentAnswer eq_refl _ _ _ Hin eq_refl _) _);
      [constructor|done|by repeat constructor|vm_compute; reflexivity|done].
  - refine (proj2 (first_valid_value_wins duplicate_input [] _ r1 _ 1
                     VScore eq_refl _ _ _ Hin eq_refl _) _);
      [constructor|done|repeat constructor; unfold exact; cbn; lia
      |vm_compute; reflexivity|].
    apply Exists_cons_tl, Exists_cons_hd. vm_compute.
    split; [done|]. split; [reflexivity|done].
Defined.

(** ** Records without a student id *)

(** C8, as written, fails: [pivot_student_data] has no failure outcome, and
    the record without a student id gets a row of the report. *)
Lemma missing_identity_counterexample :
  ¬ missing_identity_rejected no_student_input.
Proof.
  intros H.
  pose (r0 := with_student NaN (answer "" 10 "B" 1)).
  apply (H r0 (list_elem_of_here _ _) eq_refl (report_row no_student_input r0)).
  - row_at 0.
  - vm_compute. reflexivity.
Qed.

(** C8, amended.  The pivot checks no identity field and always returns
    the report.  The records without a student id share one row, headed by
    a null StudentId, and the question cells of that row hold their
    defaults, the answers of those records being left out.  The identity
    cells of every row are those of a record of the input, nulls
    included. *)
Theorem missing_student_id_row (df : list FlatRecord) (r : FlatRecord) :
  r ∈ df → StudentId r = NaN →
  length (filter (λ row, row_get "StudentId" row = Some NaN)
            (rows (pivot_student_data df))) = 1
  ∧ (∀ row, row ∈ rows (pivot_student_data df) →
            row_get "StudentId" row = Some NaN →
            ∀ col, new_col_name col ∈ columns (pivot_student_data df) →
                   row_get (new_col_name col) row = Some (default_fill col.1))
  ∧ (∀ row, row ∈ rows (pivot_student_data df) →
            ∃ s, s ∈ df ∧ ∀ c, c ∈ STUDENT_COLUMNS →
                               row_get c row = row_get c (student_row s)).
Proof.
  intros Hr Hnull. split; [|split].
  - rewrite <-Hnull. by apply pivot_one_row_per_student.
  - intros row (Hne & s & Hs & ->)%pivot_rows_inv Hsid col.
    rewrite report_row_student_id in Hsid. injection Hsid as Hsid.
    rewrite pivot_student_data_report by done. cbn [columns].
    intros Hd%new_col_name_in_report.
    rewrite report_row_question by done.
    by rewrite Hsid, agg_null_student.
  - intros row (Hne & s & Hs & ->)%pivot_rows_inv. exists s.
    split; [done|]. intros c Hc. by apply report_row_student_cells.
Qed.

Lemma missing_student_id_row_witness :
  length (filter (λ row, row_get "StudentId" row = Some NaN)
            (rows (pivot_student_data no_student_input))) = 1
  ∧ ∃ row, rows (pivot_student_data no_student_input) !! 0 = Some row
           ∧ row_get "Q1_StudentAnswer" row = Some (Str "Not Answered").
Proof.
  pose (r0 := with_student NaN (answer "" 10 "B" 1)).
  destruct (missing_student_id_row no_student_input r0
              (list_elem_of_here _ _) eq_refl) as (Hone & Hcells & _).
  split; [exact Hone|].
  exists (report_row no_student_input r0).
  split; [vm_compute; reflexivity|].
  apply (Hcells _) with (col := (VStudentAnswer, 1)).
  - row_at 0.
  - vm_compute. reflexivity.
  - apply list_elem_of_In. vm_compute. tauto.
Defined.

(** ** Columns *)



(** ** Slot numbers and cells *)

(** C10, as written, fails: the row of the record without a student id
    shows "N/A" under Q1_QuestionId, not question 10. *)
Lemma slot_cells_counterexample : ¬ slot_cells_consistent no_student_input.
Proof.
  intros H.
  pose (r0 := with_student NaN (answer "" 10 "B" 1)).
  pose (row := report_row no_student_input r0).
  assert (row_get (new_col_name (VQuestionID, 1)) row = Some (Num (QuestionID r0)))
    as Hcell; [|by vm_compute in Hcell].
  apply H; [|left|done|vm_compute; reflexivity].
  row_at 0.
Qed.

(** C10, amended.  In the row of a known student (non-null StudentId), for
    every slot [k] whose question the student has a record for, the cell
    Qk_QuestionId is that question's id, the k-th of the distinct question
    ids in ascending order; the id is a number that a float holds exactly,
    the column being one of floats as soon as a student lacks the slot. *)
Theorem slot_cells_of_known_students (df : list FlatRecord) (row : Row)
    (r : FlatRecord) (k : nat) :
  row ∈ rows (pivot_student_data df) →
  r ∈ df →
  StudentId r ≠ NaN →
  exact (Num (QuestionID r)) →
  row_get "StudentId" row = Some (StudentId r) →
  QNum df r = Some k →
  row_get (new_col_name (VQuestionID, k)) row = Some (Num (QuestionID r))
  ∧ 1 ≤ k
  ∧ all_question_ids df !! (k - 1) = Some (QuestionID r)
  ∧ StronglySorted Z.lt (all_question_ids df).
Proof.
  intros (Hne & s & Hs & ->)%pivot_rows_inv Hr Hn _ Hsid Hq.
  rewrite report_row_student_id in Hsid. injection Hsid as Hsid.
  split; [|split; [|split]].
  - by apply question_id_cell.
  - apply QNum_range in Hq. lia.
  - apply q_id_to_num_lookup in Hq as (i & -> & Hi).
    by rewrite Nat.sub_1_r.
  - apply all_question_ids_sorted.
Qed.

Lemma slot_cells_of_known_students_witness :
  ∃ row, rows (pivot_student_data scenario) !! 0 = Some row
         ∧ row_get "Q3_QuestionId" row = Some (Num 50)
         ∧ all_question_ids scenario !! 2 = Some 50%Z.
Proof.
  exists (report_row scenario (answer "A" 50 "C" 0)).
  split; [vm_compute; reflexivity|].
  destruct (slot_cells_of_known_students scenario
              (report_row scenario (answer "A" 50 "C" 0))
              (answer "A" 50 "C" 0) 3) as (Hcell & _ & Hid & _).
  - row_at 0.
  - left.
  - done.
  - unfold exact. cbn. lia.
  - vm_compute. reflexivity.
  - vm_compute. reflexivity.
  - split; [exact Hcell|exact Hid].
Defined.

(** ** The workbook *)

(** C6.  The pivot of the empty input is the empty frame, and for an empty
    frame [generate_excel] returns (it does not raise) a workbook of one
    sheet holding the line "Contest ID: {contest_id}" and the notice
    "No data found ..." and nothing else. *)
Theorem empty_report (contest_id : Z) (contest_info : option (list (string * cell)))
    (now1 now2 : Timestamp) :
  pivot_student_data [] = empty_frame
  ∧ is_empty (pivot_student_data []) = true
  ∧ ∀ df, is_empty df = true →
      ∃ ws, generate_excel df contest_id contest_info now1 now2 = Returned [ws]
        ∧ cells ws !! (1, 1) = Some (Str ("Contest ID: " +:+ str_int contest_id))
        ∧ (∃ notice, cells ws !! (2, 1) = Some (Str notice)
                     ∧ String.prefix "No data found" notice = true)
        ∧ dom (cells ws) = {[ (1, 1); (2, 1) ]}.
Proof.
  split; [done|]. split; [done|]. intros df Hempty.
  unfold generate_excel. rewrite Hempty.
  eexists. split; [done|]. cbn [cells write_cells foldl fst snd].
  split; [|split].
  - rewrite lookup_insert_ne by done. apply lookup_insert_eq.
  - eexists. split; [apply lookup_insert_eq|done].
  - rewrite !dom_insert_L, dom_empty_L. set_solver.
Qed.

Lemma empty_report_witness :
  ∃ ws, generate_excel (pivot_student_data []) 178 None clock clock
        = Returned [ws]
        ∧ cells ws !! (1, 1) = Some (Str "Contest ID: 178").
Proof.
  destruct (empty_report 178 None clock clock) as (_ & Hempty & Hrender).
  destruct (Hrender _ Hempty) as (ws & Hws & Htitle & _).
  exists ws. split; [exact Hws|exact Htitle].
Defined.

Lemma first_error_None (checks : list (option string)) :
  Forall (λ x, x = None) checks → first_error checks = None.
Proof.
  unfold first_error. induction 1 as [|x l -> _ IH]; [done|]. apply IH.
Qed.

Lemma write_error_legal (row : nat) (c : cell) :
  (Z.of_nat row ≤ 1048576)%Z → legal c = true → write_error row c = None.
Proof.
  intros Hrow Hc. unfold write_error.
  rewrite bool_decide_eq_false_2 by lia.
  destruct c as [| |s]; [done..|]. unfold check_string.
  cbn [legal] in Hc. apply negb_true_iff in Hc. by rewrite Hc.
Qed.

(** A writable frame is written without an error. *)
Lemma writable_to_excel (df : DataFrame) :
  writable df = true → to_excel_error 3 df = None.
Proof.
  unfold writable. rewrite !andb_true_iff, !bool_decide_eq_true.
  intros [[[Hrows Hcols] Hlabels%Is_true_true_2] Hcells%Is_true_true_2].
  apply forallb_True in Hlabels, Hcells.
  unfold to_excel_error, sheet_too_large.
  rewrite !bool_decide_eq_false_2 by lia. cbn [orb].
  apply first_error_None, Forall_app. split.
  - apply Forall_fmap. eapply Forall_impl; [exact Hlabels|].
    intros c Hc. cbn. apply write_error_legal; [lia|by apply Is_true_true_1].
  - apply Forall_bind, Forall_forall. intros j _. cbn.
    apply Forall_forall. intros x (i & r & -> & Hr)%elem_of_lookup_imap.
    apply write_error_legal.
    + apply lookup_lt_Some in Hr. lia.
    + unfold cell_at. destruct (r !! j) as [p|] eqn:Hp; [|done]. cbn.
      rewrite Forall_forall in Hcells.
      pose proof (Hcells r (list_elem_of_lookup_2 _ _ _ Hr)) as Hrow.
      apply forallb_True in Hrow. rewrite Forall_forall in Hrow.
      apply Is_true_true_1, Hrow. by eapply list_elem_of_lookup_2.
Qed.

Lemma generate_excel_writable (df : DataFrame) (contest_id : Z)
    (contest_info : option (list (string * cell))) (now1 now2 : Timestamp) :
  is_empty df = false →
  writable df = true →
  generate_excel df contest_id contest_info now1 now2
  = Returned [responses_sheet df contest_id now1;
              summary_sheet df contest_id now2].
Proof.
  intros Hempty Hw. unfold generate_excel.
  by rewrite Hempty, writable_to_excel.
Qed.

(** C7.  For a non-empty frame with distinct labels and numbers that a
    float holds exactly, which a sheet can take (at most 1048572 rows below
    the three header lines and the labels, at most 16384 columns, no
    illegal character in a label or a value)
    [generate_excel] returns the workbook, and the header line A3
    of the primary sheet and the "Total Questions" line of the summary
    sheet both report [(number of columns - 9) // 7]; with 9 student
    columns and 21 question columns that is 3. *)
Theorem question_count_reported (df : DataFrame) (contest_id : Z)
    (contest_info : option (list (string * cell))) (now1 now2 : Timestamp) :
  well_formed df →
  exact_frame df →
  is_empty df = false →
  writable df = true →
  ∃ ws sm,
    generate_excel df contest_id contest_info now1 now2 = Returned [ws; sm]
    ∧ title ws = "Student Responses"
    ∧ cells ws !! (3, 1)
      = Some (Str ("Students: " +:+ str_nat (length (rows df))
                   +:+ " | Questions: "
                   +:+ str_int ((Z.of_nat (length (columns df)) - 9) `div` 7)))
    ∧ title sm = "Summary"
    ∧ cells sm !! (5, 1) = Some (Str "Total Questions")
    ∧ cells sm !! (5, 2)
      = Some (Num ((Z.of_nat (length (columns df)) - 9) `div` 7))
    ∧ (length (columns df) = 9 + 21 →
       ((Z.of_nat (length (columns df)) - 9) `div` 7 = 3)%Z).
Proof.
  intros _ _ Hempty Hsize. rewrite generate_excel_writable by done.
  eexists _, _. split; [done|]. split; [done|]. split.
  { cbn [cells responses_sheet write_cells foldl fst snd].
    apply lookup_insert_eq. } 
  split; [done|].
  cbn [cells summary_sheet]. unfold to_excel_cells, summary_df.
  cbn [columns rows imap zip_with app concat fst snd write_cells foldl
       Nat.add compose].
  split; [|split].
  - repeat (rewrite lookup_insert_ne by done). apply lookup_insert_eq.
  - repeat (rewrite lookup_insert_ne by done). apply lookup_insert_eq.
  - intros ->. done.
Qed.

Lemma question_count_reported_witness :
  ∃ ws sm,
    generate_excel three_block_frame 178 None clock clock = Returned [ws; sm]
    ∧ cells ws !! (3, 1) = Some (Str "Students: 2 | Questions: 3")
    ∧ cells sm !! (5, 2) = Some (Num 3).
Proof.
  destruct (question_count_reported three_block_frame 178 None clock clock)
    as (ws & sm & Hwb & _ & Hhead & _ & _ & Hsum & _);
    [apply (bool_decide_unpack _); by vm_compute
    |apply (bool_decide_unpack _); by vm_compute
    |vm_compute; reflexivity..|].
  exists ws, sm. split; [exact Hwb|]. split; [exact Hhead|exact Hsum].
Defined.

(** * Further properties of the report *)

(** * Further properties of the pivot *)

Lemma pivot_rows_origin (df : list FlatRecord) (row : Row) :
  row ∈ rows (pivot_student_data df) →
  df ≠ [] ∧ ∃ s, s ∈ drop_duplicates StudentId df ∧ row = report_row df s.
Proof.
  destruct (decide (df = [])) as [->|Hne]; [by intros ?%elem_of_nil|].
  rewrite pivot_student_data_report by done. cbn [rows].
  intros (s & -> & Hs)%list_elem_of_fmap. eauto.
Qed.

Lemma NoDup_fmap_eq {X Y : Type} (f : X → Y) (l : list X) (x y : X) :
  NoDup (f <$> l) → x ∈ l → y ∈ l → f x = f y → x = y.
Proof.
  induction l as [|z l IH]; [by intros _ ?%elem_of_nil|].
  rewrite fmap_cons, NoDup_cons. intros [Hz Hnd].
  rewrite !elem_of_cons. intros [->|Hx] [->|Hy] Heq; [done| | |by apply IH].
  - destruct Hz. rewrite Heq. by apply list_elem_of_fmap_2.
  - destruct Hz. rewrite <-Heq. by apply list_elem_of_fmap_2.
Qed.

(** X1.  The rows of the report follow the students in the order in which
    their ids first occur in the input. *)
Theorem pivot_rows_first_seen (df : list FlatRecord) :
  (λ row, row_get "StudentId" row) <$> rows (pivot_student_data df)
  = Some <$> unique (StudentId <$> df).
Proof.
  destruct (decide (df = [])) as [->|Hne]; [done|].
  rewrite pivot_student_data_report by done. cbn [rows].
  rewrite <-drop_duplicates_keys, <-!list_fmap_compose.
  apply Forall_fmap_ext_1, Forall_forall. intros s _.
  apply (report_row_student_id df s).
Qed.

(** X2.  The identity cells of a student's row are those of the first
    record of that student in the input, the test date as YYYY-MM-DD; later
    records of the student do not change them. *)
Theorem pivot_identity_of_first_record (df l1 l2 : list FlatRecord)
    (r : FlatRecord) (row : Row) :
  df = l1 ++ r :: l2 →
  Forall (λ r', StudentId r' ≠ StudentId r) l1 →
  row ∈ rows (pivot_student_data df) →
  row_get "StudentId" row = Some (StudentId r) →
  (λ c, row_get c row) <$> STUDENT_COLUMNS
  = [Some (format_date (TestDate r)); Some (SchoolId r); Some (SchoolName r);
     Some (StudentId r); Some (FirstName r); Some (LastName r);
     Some (Gender r); Some (Grade r); Some (Region r)].
Proof.
  intros -> Hl1 (Hne & s & Hs & ->)%pivot_rows_origin Hsid.
  rewrite report_row_student_id in Hsid. injection Hsid as Hsid.
  assert (s = r) as ->.
  { apply (NoDup_fmap_eq StudentId (drop_duplicates StudentId (l1 ++ r :: l2)));
      [|done| |done].
    - rewrite drop_duplicates_keys. apply NoDup_unique.
    - by apply elem_of_drop_duplicates_first. }
  unfold STUDENT_COLUMNS. cbn [fmap list_fmap].
  rewrite !report_row_student_cells
    by (unfold STUDENT_COLUMNS; rewrite !elem_of_cons; tauto).
  reflexivity.
Qed.

Lemma pivot_identity_of_first_record_witness :
  (λ c, row_get c (report_row scenario (answer "A" 50 "C" 0)))
    <$> STUDENT_COLUMNS
  = [Some (Str "2024-03-07"); Some (Num 7); Some (Str "North High");
     Some (Str "A"); Some (Str "First"); Some (Str "Last");
     Some NaN; Some NaN; Some (Str "West")].
Proof.
  apply (pivot_identity_of_first_record scenario [] _ (answer "A" 50 "C" 0)
           _ eq_refl (Forall_nil_2 _)).
  - row_at 0.
  - vm_compute. reflexivity.
Defined.

(** Every row of the report has one cell under each label of the frame,
    in the order of the labels. *)
Lemma pivot_row_labels (df : list FlatRecord) (row : Row) :
  row ∈ rows (pivot_student_data df) →
  row.*1 = columns (pivot_student_data df).
Proof.
  intros (Hne & s & _ & ->)%pivot_rows_origin.
  rewrite pivot_student_data_report by done. cbn [columns].
  unfold report_row. rewrite <-list_fmap_compose. apply list_fmap_id.
Qed.

Lemma NoDup_report_columns (df : list FlatRecord) : NoDup (report_columns df).
Proof.
  unfold report_columns. apply NoDup_app. split; [|split].
  - apply (bool_decide_unpack _). by vm_compute.
  - intros c Hc (k & (col & -> & _)%list_elem_of_fmap & _)%list_elem_of_bind.
    by apply new_col_name_not_student in Hc.
  - apply NoDup_bind.
    + intros k1 k2 c _ _
        (c1 & -> & [_ (v1 & -> & _)%list_elem_of_fmap]%list_elem_of_filter)%list_elem_of_fmap
        (c2 & Heq & [_ (v2 & -> & _)%list_elem_of_fmap]%list_elem_of_filter)%list_elem_of_fmap.
      by apply new_col_name_inj in Heq as [= _ ->].
    + intros k _. apply NoDup_fmap_2_strong.
      * intros c1 c2 _ _. apply new_col_name_inj.
      * apply NoDup_filter. unfold question_block.
        apply NoDup_fmap_2; [by intros v1 v2 [= ->]|].
        apply (bool_decide_unpack _). by vm_compute.
    + apply NoDup_seq.
Qed.

(** The report is a well-formed frame. *)
Lemma pivot_well_formed (df : list FlatRecord) :
  well_formed (pivot_student_data df).
Proof.
  split.
  - destruct (decide (df = [])) as [->|Hne]; [constructor|].
    rewrite pivot_student_data_report by done. apply NoDup_report_columns.
  - apply Forall_forall. intros row. apply pivot_row_labels.
Qed.

(** X4.  No two columns of the report have the same name. *)
Theorem pivot_columns_distinct (df : list FlatRecord) :
  NoDup (columns (pivot_student_data df)).
Proof.
  destruct (decide (df = [])) as [->|Hne]; [constructor|].
  rewrite pivot_student_data_report by done. apply NoDup_report_columns.
Qed.

(** X5.  After the fills no question cell of the report is null: under
    every column other than the nine student columns every row holds a
    value. *)
Theorem pivot_question_cells_filled (df : list FlatRecord) (row : Row)
    (c : string) :
  row ∈ rows (pivot_student_data df) →
  c ∈ columns (pivot_student_data df) →
  c ∉ STUDENT_COLUMNS →
  ∃ x, row_get c row = Some x ∧ x ≠ NaN.
Proof.
  intros (Hne & s & _ & ->)%pivot_rows_origin.
  rewrite pivot_student_data_report by done. cbn [columns].
  intros [?|(col & -> & Hd)]%elem_of_report_columns Hc; [done|].
  rewrite report_row_question by done. eexists. split; [done|].
  destruct col as [v k]. cbn [fst snd].
  by destruct v, (agg df (StudentId s, k) _).
Qed.

Lemma pivot_question_cells_filled_witness :
  ∃ row x, rows (pivot_student_data scenario) !! 1 = Some row
           ∧ row_get "Q3_Score" row = Some x ∧ x ≠ NaN.
Proof.
  exists (report_row scenario (answer "B" 30 "B" 1)).
  destruct (pivot_question_cells_filled scenario
              (report_row scenario (answer "B" 30 "B" 1)) "Q3_Score")
    as (x & Hx & Hn).
  - row_at 1.
  - apply list_elem_of_In. vm_compute. tauto.
  - unfold STUDENT_COLUMNS. rewrite !elem_of_cons, elem_of_nil.
    intros H. repeat (destruct H as [H|H]; [discriminate H|]). done.
  - exists x. split; [vm_compute; reflexivity|]. split; [exact Hx|exact Hn].
Defined.

Lemma length_bind_le {X Y : Type} (f : X → list Y) (n : nat) (l : list X) :
  (∀ x, length (f x) ≤ n) → length (l ≫= f) ≤ length l * n.
Proof.
  intros Hf. induction l as [|x l IH]; [done|].
  rewrite bind_cons, length_app. specialize (Hf x). cbn. lia.
Qed.

Lemma length_bind_eq {X Y : Type} (f : X → list Y) (n : nat) (l : list X) :
  Forall (λ x, length (f x) = n) l → length (l ≫= f) = length l * n.
Proof.
  induction 1 as [|x l Hx _ IH]; [done|].
  rewrite bind_cons, length_app. cbn. lia.
Qed.

Lemma length_report_columns_bounds (df : list FlatRecord) :
  9 ≤ length (report_columns df) ≤ 9 + 7 * question_total df.
Proof.
  unfold report_columns. rewrite length_app. cbn [STUDENT_COLUMNS length].
  pose proof (length_bind_le
    (λ k, new_col_name <$> filter (has_data df) (question_block k)) 7
    (seq 1 (question_total df))) as Hle.
  rewrite length_seq in Hle. cut (∀ k,
    length (new_col_name <$> filter (has_data df) (question_block k)) ≤ 7).
  { intros Hk. specialize (Hle Hk). lia. }
  intros k. rewrite length_fmap.
  etrans; [apply length_filter|]. done.
Qed.

Lemma length_report_columns_complete (df : list FlatRecord) :
  complete df → length (report_columns df) = 9 + 7 * question_total df.
Proof.
  intros Hc. unfold report_columns.
  rewrite length_app. cbn [STUDENT_COLUMNS length].
  rewrite (length_bind_eq _ 7); [rewrite length_seq; lia|].
  apply Forall_forall. intros k [Hk1 Hk2]%elem_of_seq.
  rewrite length_fmap, filter_all; [done|].
  apply Forall_forall. intros [v k'] (v' & [= -> ->] & _)%list_elem_of_fmap.
  apply complete_has_data; [done|lia].
Qed.

(** X6.  A non-empty report has the nine student columns and at most seven
    columns per distinct question; it has all of them when the input has
    no null student id and no null question field. *)
Theorem pivot_column_count (df : list FlatRecord) :
  df ≠ [] →
  9 ≤ length (columns (pivot_student_data df)) ≤ 9 + 7 * question_total df
  ∧ (complete df →
     length (columns (pivot_student_data df)) = 9 + 7 * question_total df).
Proof.
  intros Hne. rewrite pivot_student_data_report by done. cbn [columns].
  split; [apply length_report_columns_bounds|].
  apply length_report_columns_complete.
Qed.

Lemma complete_scenario : complete scenario.
Proof.
  assert (∀ sid q a sc,
            StudentId (answer sid q a sc) ≠ NaN
            ∧ ∀ v, value_of v (answer sid q a sc) ≠ NaN) as Hrec.
  { intros. split; [discriminate|]. intros []; discriminate. }
  unfold complete, scenario.
  repeat (apply Forall_cons; split; [apply Hrec|]). apply Forall_nil_2.
Qed.

Lemma pivot_column_count_witness :
  length (columns (pivot_student_data scenario)) = 30.
Proof.
  destruct (pivot_column_count scenario) as [_ Hall]; [discriminate|].
  rewrite Hall; [vm_compute; reflexivity|apply complete_scenario].
Defined.

(** * Further properties of the workbook *)

Section writes.
Context {K V : Type} `{Countable K}.
Implicit Types (l : list (K * V)) (m : gmap K V).

Lemma foldl_insert_notin l m (k : K) :
  k ∉ l.*1 → foldl (λ m p, <[p.1 := p.2]> m) m l !! k = m !! k.
Proof.
  revert m. induction l as [|[k' v'] l IH]; intros m Hk; [done|].
  rewrite fmap_cons, not_elem_of_cons in Hk. destruct Hk as [Hne Hk].
  cbn. rewrite IH by done. by apply lookup_insert_ne.
Qed.

Lemma foldl_insert_lookup l m (k : K) (v : V) :
  (k, v) ∈ l → (∀ v', (k, v') ∈ l → v' = v) →
  foldl (λ m p, <[p.1 := p.2]> m) m l !! k = Some v.
Proof.
  induction l as [|[k' v'] l IH] using rev_ind; [by intros ?%elem_of_nil|].
  intros Hin Huniq. rewrite foldl_snoc. cbn.
  destruct (decide (k' = k)) as [->|Hne].
  - rewrite lookup_insert_eq. f_equal. apply Huniq.
    apply elem_of_app. right. left.
  - rewrite lookup_insert_ne by done. apply IH.
    + apply elem_of_app in Hin as [?|Hin]; [done|].
      apply list_elem_of_singleton in Hin. congruence.
    + intros v'' ?. apply Huniq, elem_of_app. by left.
Qed.
End writes.

Lemma elem_of_enumerate {X : Type} (start : nat) (l : list X) (i : nat) (x : X) :
  (i, x) ∈ enumerate start l ↔ ∃ j, i = start + j ∧ l !! j = Some x.
Proof.
  revert start. induction l as [|y l IH]; intros start; cbn.
  - split; [by intros ?%elem_of_nil|]. by intros (j & _ & ?).
  - rewrite elem_of_cons, IH. split.
    + intros [[= -> ->]|(j & -> & Hj)].
      * exists 0. by rewrite Nat.add_0_r.
      * exists (S j). split; [lia|done].
    + intros ([|j] & -> & Hj); cbn in Hj.
      * left. injection Hj as ->. by rewrite Nat.add_0_r.
      * right. exists j. split; [lia|done].
Qed.

Lemma elem_of_concat {X : Type} (ls : list (list X)) (x : X) :
  x ∈ concat ls ↔ ∃ l, l ∈ ls ∧ x ∈ l.
Proof.
  rewrite list_elem_of_In, in_concat.
  by setoid_rewrite <-list_elem_of_In.
Qed.

Lemma elem_of_to_excel_cells (startrow : nat) (df : DataFrame)
    (x : (nat * nat) * cell) :
  x ∈ to_excel_cells startrow df ↔
  (∃ j c, columns df !! j = Some c
          ∧ x = ((startrow + 1, j + 1), excel_value (Str c)))
  ∨ (∃ i r j p, rows df !! i = Some r ∧ r !! j = Some p
                ∧ x = ((startrow + 2 + i, j + 1), excel_value p.2)).
Proof.
  unfold to_excel_cells.
  rewrite elem_of_app, elem_of_lookup_imap, elem_of_concat.
  split.
  - intros [(j & c & -> & Hc)
           |(cs & (i & r & -> & Hr)%elem_of_lookup_imap
                & (j & p & -> & Hp)%elem_of_lookup_imap)].
    + left. by exists j, c.
    + right. by exists i, r, j, p.
  - intros [(j & c & Hc & ->)|(i & r & j & p & Hr & Hp & ->)].
    + left. by exists j, c.
    + right. eexists. split.
      * apply elem_of_lookup_imap. by exists i, r.
      * apply elem_of_lookup_imap. by exists j, p.
Qed.

Lemma responses_sheet_cells (df : DataFrame) (contest_id : Z)
    (now : Timestamp) :
  cells (responses_sheet df contest_id now)
  = foldl (λ m p, <[p.1 := p.2]> m) ∅
      (to_excel_cells 3 df ++
       [((1, 1), Str ("Contest ID: " +:+ str_int contest_id));
        ((2, 1), Str ("Generated: " +:+ strftime_YmdHMS now));
        ((3, 1), Str ("Students: " +:+ str_nat (length (rows df))
                      +:+ " | Questions: " +:+ str_int (question_count df)))]).
Proof. unfold responses_sheet, write_cells. cbn [cells]. by rewrite foldl_app. Qed.

(** X7.  For a frame with distinct labels that a sheet can take, with
    numbers that a float holds exactly, the primary sheet shows the table below the three
    header lines: row 4 holds the column labels in order, and sheet row
    5 + i holds row i of the frame, cell by cell: a number as it is, a
    null as the empty string, a string (and a label) cut after 32767
    characters. *)
Theorem primary_sheet_shows_table (df : DataFrame) (contest_id : Z)
    (contest_info : option (list (string * cell))) (now1 now2 : Timestamp) :
  well_formed df →
  exact_frame df →
  is_empty df = false →
  writable df = true →
  ∃ ws sm,
    generate_excel df contest_id contest_info now1 now2 = Returned [ws; sm]
    ∧ (∀ j c, columns df !! j = Some c →
              cells ws !! (4, j + 1) = Some (Str (str_slice 32767 c)))
    ∧ (∀ i j (r : Row) p, rows df !! i = Some r → r !! j = Some p →
              cells ws !! (5 + i, j + 1) = Some (excel_value p.2)).
Proof.
  intros _ _ Hempty Hsize. rewrite generate_excel_writable by done.
  eexists _, _. split; [done|]. rewrite responses_sheet_cells. split.
  - intros j c Hc. apply foldl_insert_lookup.
    + apply elem_of_app. left. apply elem_of_to_excel_cells. left. by exists j, c.
    + intros v' [[(j' & c' & Hc' & Heq)
                 |(i & r & j' & p & _ & _ & Heq)]%elem_of_to_excel_cells
                 |Hv']%elem_of_app.
      * injection Heq as Hj ->. assert (j' = j) as -> by lia. congruence.
      * apply (f_equal (λ x, x.1.1)) in Heq. cbn in Heq. lia.
      * rewrite !elem_of_cons, elem_of_nil in Hv'.
        destruct Hv' as [Hv'|[Hv'|[Hv'|[]]]];
          apply (f_equal (λ x, x.1.1)) in Hv'; cbn in Hv'; lia.
  - intros i j r p Hr Hp. apply foldl_insert_lookup.
    + apply elem_of_app. left. apply elem_of_to_excel_cells. right.
      by exists i, r, j, p.
    + intros v' [[(j' & c' & _ & Heq)
                 |(i' & r' & j' & p' & Hr' & Hp' & Heq)]%elem_of_to_excel_cells
                 |Hv']%elem_of_app.
      * apply (f_equal (λ x, x.1.1)) in Heq. cbn in Heq. lia.
      * injection Heq as Hi Hj ->.
        assert (i' = i) as -> by lia. assert (j' = j) as -> by lia.
        congruence.
      * rewrite !elem_of_cons, elem_of_nil in Hv'.
        destruct Hv' as [Hv'|[Hv'|[Hv'|[]]]];
          apply (f_equal (λ x, x.1.1)) in Hv'; cbn in Hv'; lia.
Qed.

Lemma primary_sheet_shows_table_witness :
  ∃ ws sm,
    generate_excel three_block_frame 178 None clock clock = Returned [ws; sm]
    ∧ cells ws !! (4, 10) = Some (Str "Q1_QuestionId")
    ∧ cells ws !! (6, 10) = Some (Str "N/A").
Proof.
  destruct (primary_sheet_shows_table three_block_frame 178 None clock clock)
    as (ws & sm & Hwb & Hhead & Hdata);
    [apply (bool_decide_unpack _); by vm_compute
    |apply (bool_decide_unpack _); by vm_compute
    |vm_compute; reflexivity..|].
  exists ws, sm. split; [exact Hwb|]. split.
  - apply (Hhead 9 "Q1_QuestionId"). vm_compute. reflexivity.
  - refine (Hdata 1 9 (report_row scenario (answer "B" 30 "B" 1))
                  ("Q1_QuestionId", Str "N/A") _ _);
      vm_compute; reflexivity.
Defined.

(** X8.  For a frame with distinct labels and numbers that a float holds
    exactly, which a sheet can take: every cell of the header row, and no
    data cell, gets the header style (bold white on blue, centred,
    wrapped); the pane is frozen below the header row and right of the
    nine student columns. *)
Theorem header_row_styled (df : DataFrame) (contest_id : Z)
    (contest_info : option (list (string * cell))) (now1 now2 : Timestamp) :
  well_formed df →
  exact_frame df →
  is_empty df = false →
  writable df = true →
  ∃ ws sm,
    generate_excel df contest_id contest_info now1 now2 = Returned [ws; sm]
    ∧ freeze_panes ws = Some (5, 10)
    ∧ styles ws !! (1, 1) = Some title_style
    ∧ ∀ i j, 1 < i →
        styles ws !! (i, j)
        = if decide (i = 4 ∧ 1 ≤ j ≤ length (columns df))
          then Some header_style else None.
Proof.
  intros _ _ Hempty Hsize. rewrite generate_excel_writable by done.
  eexists _, _. split; [done|]. split; [done|].
  unfold responses_sheet, write_cells. cbn [styles].
  set (l := (λ col_idx, ((4, col_idx), header_style)) <$> _). split.
  - rewrite foldl_insert_notin; [apply lookup_singleton_eq|].
    subst l. rewrite <-list_fmap_compose.
    by intros (j & [=] & _)%list_elem_of_fmap.
  - intros i j Hi. case_decide as Hij.
    + destruct Hij as [-> Hj]. apply foldl_insert_lookup.
      * subst l. apply list_elem_of_fmap. exists j. split; [done|].
        apply elem_of_seq. lia.
      * subst l. by intros v' (j' & [= _ ->] & _)%list_elem_of_fmap.
    + rewrite foldl_insert_notin.
      * apply lookup_singleton_ne. intros [= <- _]. lia.
      * subst l. rewrite <-list_fmap_compose.
        intros (j' & [= -> ->] & Hj'%elem_of_seq)%list_elem_of_fmap.
        destruct Hij. lia.
Qed.

Lemma header_row_styled_witness :
  ∃ ws sm,
    generate_excel three_block_frame 178 None clock clock = Returned [ws; sm]
    ∧ styles ws !! (4, 30) = Some header_style
    ∧ styles ws !! (5, 1) = None.
Proof.
  destruct (header_row_styled three_block_frame 178 None clock clock)
    as (ws & sm & Hwb & _ & _ & Hst);
    [apply (bool_decide_unpack _); by vm_compute
    |apply (bool_decide_unpack _); by vm_compute
    |vm_compute; reflexivity..|].
  exists ws, sm. split; [exact Hwb|]. split.
  - apply (Hst 4 30). lia.
  - apply (Hst 5 1). lia.
Defined.

(** X9.  For a frame with distinct labels and numbers that a float holds
    exactly, which a sheet can take, column widths follow the labels: 25
    for SchoolName, 12 for every other student column, 10 for every
    question column, keyed by the position of the column. *)
Theorem column_widths_by_label (df : DataFrame) (contest_id : Z)
    (contest_info : option (list (string * cell))) (now1 now2 : Timestamp) :
  well_formed df →
  exact_frame df →
  is_empty df = false →
  writable df = true →
  ∃ ws sm,
    generate_excel df contest_id contest_info now1 now2 = Returned [ws; sm]
    ∧ ∀ j c, columns df !! j = Some c →
        column_widths ws !! (j + 1)
        = Some (if decide (c = "SchoolName") then 25
                else if decide (c ∈ STUDENT_COLUMNS) then 12 else 10).
Proof.
  intros _ _ Hempty Hsize. rewrite generate_excel_writable by done.
  eexists _, _. split; [done|]. intros j c Hc.
  unfold responses_sheet. cbn [column_widths].
  rewrite <-(foldl_fmap (λ m p, <[p.1 := p.2]> m) ∅ (enumerate 1 (columns df))
               (λ p, (p.1, column_width p.2))).
  assert (column_width c
          = if decide (c = "SchoolName") then 25
            else if decide (c ∈ STUDENT_COLUMNS) then 12 else 10) as <-.
  { unfold column_width. destruct (decide (c = "TestDate")) as [->|]; [|done].
    rewrite decide_False by done. rewrite decide_True; [done|].
    unfold STUDENT_COLUMNS. left. }
  apply foldl_insert_lookup.
  - apply list_elem_of_fmap. exists (j + 1, c). split; [done|].
    apply elem_of_enumerate. exists j. split; [lia|done].
  - intros v' ([i c'] & Heq & (j' & Hi & Hc')%elem_of_enumerate)%list_elem_of_fmap.
    cbn in Heq. injection Heq as Hj ->.
    assert (j' = j) as -> by lia. congruence.
Qed.

Lemma column_widths_by_label_witness :
  ∃ ws sm,
    generate_excel three_block_frame 178 None clock clock = Returned [ws; sm]
    ∧ column_widths ws !! 3 = Some 25
    ∧ column_widths ws !! 4 = Some 12
    ∧ column_widths ws !! 10 = Some 10.
Proof.
  destruct (column_widths_by_label three_block_frame 178 None clock clock)
    as (ws & sm & Hwb & Hw);
    [apply (bool_decide_unpack _); by vm_compute
    |apply (bool_decide_unpack _); by vm_compute
    |vm_compute; reflexivity..|].
  exists ws, sm. split; [exact Hwb|]. split; [|split].
  - apply (Hw 2 "SchoolName"). vm_compute. reflexivity.
  - apply (Hw 3 "StudentId"). vm_compute. reflexivity.
  - apply (Hw 9 "Q1_QuestionId"). vm_compute. reflexivity.
Defined.

(** ** The workbook of a pivoted frame *)

Lemma pivot_not_empty (df : list FlatRecord) :
  df ≠ [] → is_empty (pivot_student_data df) = false.
Proof.
  intros Hne. rewrite pivot_student_data_report by done.
  destruct df as [|r df]; [done|]. reflexivity.
Qed.

Lemma pivot_school_series (df : list FlatRecord) :
  df ≠ [] →
  series "SchoolId" (pivot_student_data df)
  = SchoolId <$> drop_duplicates StudentId df.
Proof.
  intros Hne. rewrite pivot_student_data_report by done.
  unfold series. cbn [rows]. rewrite <-list_fmap_compose.
  apply Forall_fmap_ext_1, Forall_forall. intros s _. unfold compose.
  rewrite report_row_student_cells; [done|].
  unfold STUDENT_COLUMNS. right. left.
Qed.

Lemma nunique_size (l : list cell) :
  nunique l = size (list_to_set (filter (λ c, c ≠ NaN) l) : gset cell).
Proof.
  unfold nunique. rewrite length_unique. do 2 f_equal.
  apply list_filter_iff. intros c. by destruct c.
Qed.

Lemma summary_sheet_values (df : DataFrame) (contest_id : Z) (now : Timestamp) :
  let sm := summary_sheet df contest_id now in
  cells sm !! (3, 1) = Some (Str "Total Students")
  ∧ cells sm !! (3, 2) = Some (Num (Z.of_nat (length (rows df))))
  ∧ cells sm !! (4, 1) = Some (Str "Total Schools")
  ∧ cells sm !! (4, 2)
    = Some (Num (if decide ("SchoolId" ∈ columns df)
                 then Z.of_nat (nunique (series "SchoolId" df)) else 0))
  ∧ cells sm !! (5, 2) = Some (Num (question_count df)).
Proof.
  cbn [cells summary_sheet]. unfold to_excel_cells, summary_df.
  cbn [columns rows imap zip_with app concat fst snd write_cells foldl
       Nat.add compose].
  repeat split;
    (repeat (rewrite lookup_insert_ne by done)); apply lookup_insert_eq.
Qed.

(** X10.  For the report of a flat input within the ranges of pandas
    that a sheet can take, the summary sheet
    counts as "Total Students" the distinct student ids of the input, and
    as "Total Schools" the distinct non-null school ids found on the first
    record of each student. *)
Theorem summary_totals (df : list FlatRecord) (contest_id : Z)
    (contest_info : option (list (string * cell))) (now1 now2 : Timestamp) :
  df ≠ [] →
  Forall representable df →
  writable (pivot_student_data df) = true →
  ∃ ws sm,
    generate_excel (pivot_student_data df) contest_id contest_info now1 now2
    = Returned [ws; sm]
    ∧ cells sm !! (3, 1) = Some (Str "Total Students")
    ∧ cells sm !! (3, 2)
      = Some (Num (Z.of_nat (size (list_to_set (StudentId <$> df) : gset cell))))
    ∧ cells sm !! (4, 1) = Some (Str "Total Schools")
    ∧ cells sm !! (4, 2)
      = Some (Num (Z.of_nat (size (list_to_set
                 (filter (λ c, c ≠ NaN)
                    (SchoolId <$> drop_duplicates StudentId df)) : gset cell)))).
Proof.
  intros Hne _ Hsize.
  rewrite generate_excel_writable by auto using pivot_not_empty.
  eexists _, _. split; [done|].
  destruct (summary_sheet_values (pivot_student_data df) contest_id now2)
    as (H31 & H32 & H41 & H42 & _).
  rewrite H31, H32, H41, H42. split; [done|]. split.
  - do 3 f_equal. rewrite pivot_student_data_report by done. cbn [rows].
    rewrite length_fmap, <-(length_fmap StudentId), drop_duplicates_keys.
    apply length_unique.
  - split; [done|]. rewrite decide_True.
    + by rewrite pivot_school_series, nunique_size.
    + rewrite pivot_student_data_report by done. cbn [columns].
      apply elem_of_report_columns. left. unfold STUDENT_COLUMNS. right. left.
Qed.

Lemma summary_totals_witness :
  ∃ ws sm,
    generate_excel (pivot_student_data scenario) 178 None clock clock
    = Returned [ws; sm]
    ∧ cells sm !! (3, 2) = Some (Num 2)
    ∧ cells sm !! (4, 2) = Some (Num 1).
Proof.
  destruct (summary_totals scenario 178 None clock clock)
    as (ws & sm & Hwb & _ & Hst & _ & Hsc);
    [discriminate|apply (bool_decide_unpack _); by vm_compute
    |vm_compute; reflexivity|].
  exists ws, sm. split; [exact Hwb|]. split.
  - rewrite Hst. vm_compute. reflexivity.
  - rewrite Hsc. vm_compute. reflexivity.
Defined.

(** X11.  The question count reported for the report of a flat input
    within the ranges of pandas that a sheet can take never exceeds the
    number of distinct questions, and equals it when the input has no null
    student id and no null question field. *)
Theorem reported_question_count (df : list FlatRecord) (contest_id : Z)
    (contest_info : option (list (string * cell))) (now1 now2 : Timestamp) :
  df ≠ [] →
  Forall representable df →
  writable (pivot_student_data df) = true →
  ∃ ws sm q,
    generate_excel (pivot_student_data df) contest_id contest_info now1 now2
    = Returned [ws; sm]
    ∧ cells sm !! (5, 2) = Some (Num q)
    ∧ (0 ≤ q ≤ Z.of_nat (question_total df))%Z
    ∧ (complete df → q = Z.of_nat (question_total df)).
Proof.
  intros Hne _ Hsize.
  rewrite generate_excel_writable by auto using pivot_not_empty.
  eexists _, _, (question_count (pivot_student_data df)).
  split; [done|].
  destruct (summary_sheet_values (pivot_student_data df) contest_id now2)
    as (_ & _ & _ & _ & H52). split; [exact H52|].
  unfold question_count. rewrite pivot_student_data_report by done.
  cbn [columns STUDENT_COLUMNS length].
  pose proof (length_report_columns_bounds df) as [Hlo Hhi]. split.
  - split.
    + apply Z.div_pos; lia.
    + apply Z.div_le_upper_bound; lia.
  - intros Hc. rewrite (length_report_columns_complete df Hc).
    replace (Z.of_nat (9 + 7 * question_total df) - Z.of_nat 9)%Z
      with (Z.of_nat (question_total df) * 7)%Z by lia.
    by apply Z.div_mul.
Qed.

Lemma reported_question_count_witness :
  ∃ ws sm,
    generate_excel (pivot_student_data scenario) 178 None clock clock
    = Returned [ws; sm]
    ∧ cells sm !! (5, 2) = Some (Num 3).
Proof.
  destruct (reported_question_count scenario 178 None clock clock)
    as (ws & sm & q & Hwb & Hq & _ & Hall);
    [discriminate|apply (bool_decide_unpack _); by vm_compute
    |vm_compute; reflexivity|].
  exists ws, sm. split; [exact Hwb|].
  rewrite Hq, Hall; [vm_compute; reflexivity|apply complete_scenario].
Defined.


(** ** The limits of a sheet *)

Lemma first_error_None_inv (checks : list (option string)) :
  first_error checks = None → Forall (λ x, x = None) checks.
Proof.
  unfold first_error. induction checks as [|[e|] l IH]; [done..|].
  intros Hl. constructor; [done|]. by apply IH.
Qed.

Lemma write_error_None (row : nat) (c : cell) :
  write_error row c = None →
  (Z.of_nat row ≤ 1048576)%Z ∧ legal c = true.
Proof.
  unfold write_error. case_bool_decide as Hrow; [done|]. intros Hc.
  split; [lia|]. destruct c as [| |s]; [done..|]. cbn [legal].
  unfold check_string in Hc.
  by destruct (has_illegal_character (str_slice 32767 s)).
Qed.

(** A frame that is written without an error is writable. *)
Lemma to_excel_writable (df : DataFrame) :
  Forall (λ r : Row, r.*1 = columns df) (rows df) →
  columns df ≠ [] →
  to_excel_error 3 df = None → writable df = true.
Proof.
  intros Hwf Hcols. unfold to_excel_error, sheet_too_large.
  case_bool_decide as Hr; [done|]. case_bool_decide as Hc; [done|]. cbn [orb].
  intros [Hlabels Hbody]%first_error_None_inv%Forall_app.
  rewrite Forall_fmap in Hlabels. rewrite Forall_bind in Hbody.
  rewrite Forall_forall in Hbody. rewrite Forall_forall in Hwf.
  assert (∀ i j (r : Row), rows df !! i = Some r → j < length (columns df) →
            (Z.of_nat (5 + i) ≤ 1048576)%Z ∧ legal (cell_at j r) = true)
    as Hcell.
  { intros i j r Hi Hj. apply write_error_None.
    assert (j ∈ seq 0 (length (columns df))) as Hin by (apply elem_of_seq; lia).
    pose proof (Hbody j Hin) as Hcol. cbn in Hcol.
    rewrite Forall_forall in Hcol. apply Hcol.
    by apply (elem_of_lookup_imap_2
                (λ i r, write_error (3 + 2 + i) (cell_at j r))). }
  unfold writable. rewrite !andb_true_iff, !bool_decide_eq_true.
  split; [split; [split|]|].
  - destruct (rows df) as [|r0 l] eqn:Hrows using rev_ind; [cbn; lia|].
    clear IHl. destruct (columns df) as [|c0 cs] eqn:Hcs; [done|].
    destruct (Hcell (length l) 0 r0) as [Hrow _].
    + by rewrite lookup_app_r, Nat.sub_diag by lia.
    + cbn. lia.
    + rewrite length_app. cbn [length]. lia.
  - lia.
  - apply Is_true_true_1, forallb_True.
    eapply Forall_impl; [exact Hlabels|]. intros c Hc'. cbn in Hc'.
    apply Is_true_true_2. by apply write_error_None in Hc' as [_ ?].
  - apply Is_true_true_1, forallb_True, Forall_forall.
    intros r [i Hi]%list_elem_of_lookup_1.
    apply forallb_True, Forall_forall. intros p [j Hj]%list_elem_of_lookup_1.
    apply Is_true_true_2.
    destruct (Hcell i j r Hi) as [_ Hlegal].
    + rewrite <-(Hwf r) by (by eapply list_elem_of_lookup_2).
      rewrite length_fmap. by eapply lookup_lt_Some.
    + unfold cell_at in Hlegal. by rewrite Hj in Hlegal.
Qed.

(** X24.  What a sheet cannot take makes [generate_excel] fail: for a
    non-empty frame with distinct labels and numbers that a float holds
    exactly, the call returns the workbook of two sheets when the frame
    has at most 1048572 rows and 16384 columns and no illegal character in
    a label or a value, and raises in every other case. *)
Theorem workbook_or_error (df : DataFrame) (contest_id : Z)
    (contest_info : option (list (string * cell))) (now1 now2 : Timestamp) :
  well_formed df →
  exact_frame df →
  is_empty df = false →
  if writable df
  then ∃ ws sm,
         generate_excel df contest_id contest_info now1 now2
         = Returned [ws; sm]
  else ∃ error,
         generate_excel df contest_id contest_info now1 now2 = Raised error.
Proof.
  intros [_ Hwf] _ Hempty. destruct (writable df) eqn:Hw.
  - rewrite generate_excel_writable by done. by eexists _, _.
  - unfold generate_excel. rewrite Hempty.
    destruct (to_excel_error 3 df) as [error|] eqn:Herr; [by exists error|].
    apply to_excel_writable in Herr; [congruence|done|].
    intros Hcols. unfold is_empty in Hempty. rewrite Hcols in Hempty.
    by destruct (rows df).
Qed.

Lemma workbook_or_error_witness :
  ∃ error,
    generate_excel
      (mkDataFrame ["StudentId"; "Q1_StudentAnswer"]
         [[("StudentId", Str "A");
           ("Q1_StudentAnswer", Str ("B" +:+ String "011" ""))]])
      178 None clock clock
    = Raised error.
Proof.
  apply (workbook_or_error
           (mkDataFrame ["StudentId"; "Q1_StudentAnswer"]
              [[("StudentId", Str "A");
                ("Q1_StudentAnswer", Str ("B" +:+ String "011" ""))]])
           178 None clock clock).
  - apply (bool_decide_unpack _). by vm_compute.
  - apply (bool_decide_unpack _). by vm_compute.
  - reflexivity.
Defined.

(** * Properties of the service *)

(** ** The data access layer *)

Lemma count_char_append (c : ascii) (a b : string) :
  count_char c (a +:+ b) = count_char c a + count_char c b.
Proof.
  induction a as [|x a IH]; [done|].
  rewrite append_cons. cbn [count_char]. rewrite IH. lia.
Qed.

Lemma count_marker_uint (d : uint) :
  count_char "?"%char (NilEmpty.string_of_uint d) = 0.
Proof. induction d; cbn; by rewrite ?IHd. Qed.

Lemma count_marker_str_int (z : Z) : count_char "?"%char (str_int z) = 0.
Proof.
  unfold str_int. destruct (Z.to_int z) as [d|d]; cbn;
    by rewrite count_marker_uint.
Qed.

Lemma contains_append_r (sub a b : string) :
  contains sub b = true → contains sub (a +:+ b) = true.
Proof.
  intros Hb. induction a as [|x a IH]; [done|].
  rewrite append_cons. cbn [contains]. rewrite IH. apply orb_true_r.
Qed.

Lemma or_database_error_raise {A : Type} (prefix : string) (body : result A)
    (e : exn) :
  or_database_error prefix body = Raise e →
  ∃ e', body = Raise e' ∧ e = DatabaseError (prefix +:+ exn_str e').
Proof.
  destruct body as [a|e']; [done|]. intros [= <-]. by exists e'.
Qed.

Lemma test_dates_of_Some (rows : list (list dbval)) (ds : list (option string)) :
  test_dates_of rows = Ok ds → None ∉ ds.
Proof.
  revert ds. induction rows as [|row rows IH]; intros ds.
  - intros [= <-]. by intros ?%elem_of_nil.
  - cbn [test_dates_of]. destruct row as [|x row]; [done|]. cbn.
    destruct (truthy x); [|by apply IH].
    destruct (strftime_date x) as [s|]; [|done]. cbn.
    destruct (test_dates_of rows) as [ds'|]; [|done]. cbn.
    intros [= <-]. intros [?|Hin]%elem_of_cons; [done|]. by eapply IH.
Qed.

Lemma test_dates_of_dates (rows : list (list dbval))
    (col : list (option Timestamp)) :
  Forall2 (λ row o, head row = Some (from_option DDate DNull o)) rows col →
  test_dates_of rows = Ok ((λ t, Some (date_strftime_Ymd t)) <$> omap id col).
Proof.
  induction 1 as [|row o rows col Hrow _ IH]; [done|].
  cbn [test_dates_of]. destruct row as [|x row]; [done|].
  injection Hrow as ->. destruct o as [t|]; cbn; [|done].
  by rewrite IH.
Qed.

(** X12. The student-responses query is parameterised: whatever the row
    limit and the filters, the text has exactly as many parameter markers
    as the parameter list has values (two, plus one for each filter
    given), and the values of the filters do not enter the text. *)
Theorem query_markers_match_params (max_rows contest_id : Z)
    (test_date : Timestamp) (grade school_id : option Z) :
  count_char "?"%char (student_responses_query max_rows grade school_id)
  = length (student_responses_params contest_id test_date grade school_id)
  ∧ student_responses_query max_rows grade school_id
    = student_responses_query max_rows (grade ≫= λ _, Some 0%Z)
        (school_id ≫= λ _, Some 0%Z).
Proof.
  split; [|by destruct grade, school_id].
  assert (count_char "?"%char responses_select = 0) as H1 by by vm_compute.
  assert (count_char "?"%char responses_body = 2) as H2 by by vm_compute.
  assert (count_char "?"%char responses_order_by = 0) as H3 by by vm_compute.
  unfold student_responses_query, student_responses_params.
  destruct grade, school_id, (bool_decide (0 < max_rows)%Z);
    rewrite !count_char_append, ?count_marker_str_int, H1, H2, H3;
    reflexivity.
Qed.

(** X13. The row limit is asked for exactly when [MAX_ROWS] is positive:
    with 0 (the default) or a negative value the query has no TOP clause. *)
Theorem top_clause_iff_limit (max_rows : Z) (grade school_id : option Z) :
  contains "TOP" (student_responses_query max_rows grade school_id)
  = bool_decide (0 < max_rows)%Z.
Proof.
  unfold student_responses_query.
  destruct (bool_decide (0 < max_rows)%Z).
  - destruct grade, school_id;
      rewrite ?append_assoc; apply contains_append_r; reflexivity.
  - by destruct grade, school_id; vm_compute.
Qed.

(** X14. The list of test dates never holds a null entry: a row whose
    date is null is left out, so the [else None] of the comprehension
    is never taken. *)
Theorem test_dates_without_null (db : Backend) (contest_id : Z)
    (ds : list (option string)) :
  get_available_test_dates db contest_id = Ok ds → None ∉ ds.
Proof.
  unfold get_available_test_dates, get_cursor, get_connection.
  destruct (execute db test_dates_query [DInt contest_id]) as [rs|e]; cbn.
  - destruct (test_dates_of (fetched rs)) as [ds'|e] eqn:Hds.
    + intros [= <-]. by eapply test_dates_of_Some.
    + by destruct e.
  - by destruct e.
Qed.

Lemma test_dates_without_null_witness :
  None ∉ [Some "2024-03-08"; Some "999-01-02"].
Proof. apply (test_dates_without_null sample_backend 178). reflexivity. Defined.

(** X15. When the query gives a column of dates, some of them null, the
    service returns the non-null dates in the order of the rows, each as
    [strftime('%Y-%m-%d')] prints it: the year (without padding), the
    month and the day, these two with two digits. *)
Theorem test_dates_formatted (db : Backend) (contest_id : Z) (rs : ResultSet)
    (col : list (option Timestamp)) :
  execute db test_dates_query [DInt contest_id] = Ok rs →
  Forall2 (λ row o, head row = Some (from_option DDate DNull o))
    (fetched rs) col →
  get_available_test_dates db contest_id
  = Ok ((λ t, Some (str_nat (year t) +:+ "-" +:+ zfill 2 (str_nat (month t))
                      +:+ "-" +:+ zfill 2 (str_nat (day t))))
          <$> omap id col).
Proof.
  intros Hrs Hcol. unfold get_available_test_dates. rewrite Hrs. cbn.
  by rewrite (test_dates_of_dates _ col).
Qed.

Lemma test_dates_formatted_witness :
  get_available_test_dates sample_backend 178
  = Ok [Some "2024-03-08"; Some "999-01-02"].
Proof.
  apply (test_dates_formatted sample_backend 178
           (mkResultSet ["TestDate"]
              [[DDate (mkTimestamp 2024 3 8 0 0 0)]; [DNull];
               [DDate (mkTimestamp 999 1 2 0 0 0)]])
           [Some (mkTimestamp 2024 3 8 0 0 0); None;
            Some (mkTimestamp 999 1 2 0 0 0)]).
  - reflexivity.
  - repeat constructor.
Defined.

(** ** The endpoints *)

Lemma validate_contest_exists_raise (db : Backend) (contest_id : Z) (e : exn) :
  validate_contest_exists db contest_id = Raise e → ∃ m, e = DatabaseError m.
Proof. intros (e' & _ & ->)%or_database_error_raise. eauto. Qed.

Lemma get_available_test_dates_raise (db : Backend) (contest_id : Z) (e : exn) :
  get_available_test_dates db contest_id = Raise e → ∃ m, e = DatabaseError m.
Proof. intros (e' & _ & ->)%or_database_error_raise. eauto. Qed.

Lemma get_contest_info_raise (db : Backend) (contest_id : Z) (e : exn) :
  get_contest_info db contest_id = Raise e → ∃ m, e = DatabaseError m.
Proof. intros (e' & _ & ->)%or_database_error_raise. eauto. Qed.

Lemma get_question_count_raise (db : Backend) (contest_id : Z) (e : exn) :
  get_question_count db contest_id = Raise e → ∃ m, e = DatabaseError m.
Proof. intros (e' & _ & ->)%or_database_error_raise. eauto. Qed.

Lemma validate_contest_exists_found (db : Backend) (contest_id : Z)
    (rs : ResultSet) :
  execute db validate_contest_query [DInt contest_id] = Ok rs →
  validate_contest_exists db contest_id
  = Ok (bool_decide (fetched rs ≠ [])).
Proof.
  intros Hrs. unfold validate_contest_exists. rewrite Hrs. cbn.
  do 2 f_equal. unfold fetchone. by destruct (fetched rs).
Qed.

Lemma get_contest_info_returns (db : Backend) (contest_id : Z)
    (rs : ResultSet) :
  execute db contest_info_query [DInt contest_id] = Ok rs →
  ∃ info, get_contest_info db contest_id = Ok info.
Proof.
  intros Hrs. unfold get_contest_info. rewrite Hrs. cbn.
  destruct (fetchone rs) as [[|x row]|]; eauto.
Qed.

(** X16. When the server cannot be reached, every endpoint answers with
    status 500, and the detail names the three layers the error went
    through: the endpoint, the contest check and the connection. *)
Theorem connection_failure_is_500 (db : Backend) (max_rows contest_id : Z)
    (test_date : Timestamp) (grade school_id : option Z)
    (now1 now2 now3 : Timestamp) (m : string) :
  execute db validate_contest_query [DInt contest_id] = Raise (PyodbcError m) →
  let failure :=
    Raise (HTTPException 500
             ("Database error: " +:+ "Error validating contest: "
                +:+ "Database connection error: " +:+ m)) in
  get_test_dates db contest_id = failure
  ∧ get_student_responses_report db max_rows contest_id test_date grade
      school_id now1 now2 now3 = failure
  ∧ get_contest_info_route db contest_id = failure.
Proof.
  intros Hdown.
  unfold get_test_dates, get_student_responses_report, get_contest_info_route,
    validate_contest_exists.
  by rewrite Hdown.
Qed.

Lemma connection_failure_is_500_witness :
  let failure :=
    Raise (HTTPException 500
      "Database error: Error validating contest: Database connection error: Login timeout expired") in
  get_test_dates down_backend 178 = failure
  ∧ get_student_responses_report down_backend 0 178 clock None None
      clock clock clock = failure
  ∧ get_contest_info_route down_backend 178 = failure.
Proof.
  apply (connection_failure_is_500 down_backend 0 178 clock None None
           clock clock clock "Login timeout expired").
  reflexivity.
Defined.

(** X17. A contest the database does not know gives status 404, with
    the contest's id in the detail, at the test-dates and the
    contest-info endpoint. *)
Theorem missing_contest_is_404 (db : Backend) (contest_id : Z)
    (rs : ResultSet) :
  execute db validate_contest_query [DInt contest_id] = Ok rs →
  fetched rs = [] →
  let not_found :=
    Raise (HTTPException 404
             ("Contest with ID " +:+ str_int contest_id +:+ " not found")) in
  get_test_dates db contest_id = not_found
  ∧ get_contest_info_route db contest_id = not_found.
Proof.
  intros Hrs Hnone. unfold get_test_dates, get_contest_info_route.
  rewrite (validate_contest_exists_found _ _ rs), Hnone by done.
  done.
Qed.

Lemma missing_contest_is_404_witness :
  get_test_dates no_rows_backend 178
  = Raise (HTTPException 404 "Contest with ID 178 not found")
  ∧ get_contest_info_route no_rows_backend 178
    = Raise (HTTPException 404 "Contest with ID 178 not found").
Proof.
  apply (missing_contest_is_404 no_rows_backend 178 (mkResultSet [] []));
    reflexivity.
Defined.

(** X18. At the report endpoint the same unknown contest gives status
    500: the 404 raised inside the [try] is caught by the handler of
    [Exception] and wrapped as an error of report generation. *)
Theorem report_missing_contest_is_500 (db : Backend) (max_rows contest_id : Z)
    (test_date : Timestamp) (grade school_id : option Z)
    (now1 now2 now3 : Timestamp) (rs : ResultSet) :
  execute db validate_contest_query [DInt contest_id] = Ok rs →
  fetched rs = [] →
  ∃ detail,
    get_student_responses_report db max_rows contest_id test_date grade
      school_id now1 now2 now3
    = Raise (HTTPException 500 ("Error generating report: " +:+ detail)).
Proof.
  intros Hrs Hnone. unfold get_student_responses_report.
  rewrite (validate_contest_exists_found _ _ rs), Hnone by done.
  by eexists.
Qed.

Lemma report_missing_contest_is_500_witness :
  ∃ detail,
    get_student_responses_report no_rows_backend 0 178 clock None None
      clock clock clock
    = Raise (HTTPException 500 ("Error generating report: " +:+ detail)).
Proof.
  apply (report_missing_contest_is_500 no_rows_backend 0 178 clock None None
           clock clock clock (mkResultSet [] []));
    reflexivity.
Defined.

(** X19. The test-dates and the contest-info endpoint fail in two ways
    only: whatever the database does, an exception that leaves them is
    an HTTP error with status 404 or 500. *)
Theorem json_endpoints_fail_with_404_or_500 (db : Backend) (contest_id : Z)
    (e : exn) :
  get_test_dates db contest_id = Raise e
  ∨ get_contest_info_route db contest_id = Raise e →
  ∃ detail, e = HTTPException 404 detail ∨ e = HTTPException 500 detail.
Proof.
  unfold get_test_dates, get_contest_info_route.
  destruct (validate_contest_exists db contest_id) as [[]|e0] eqn:Hv; cbn.
  - destruct (get_available_test_dates db contest_id) as [ds|e1] eqn:Hd;
      destruct (get_contest_info db contest_id) as [info|e2] eqn:Hi; cbn;
      try destruct (get_question_count db contest_id) as [n|e3] eqn:Hn; cbn;
      repeat match goal with
        | H : _ = Raise _ |- _ =>
            first [ apply get_available_test_dates_raise in H as [? ->]
                  | apply get_contest_info_raise in H as [? ->]
                  | apply get_question_count_raise in H as [? ->] ]
        end;
      cbn; intros [[=]|[=]]; subst; eauto.
  - intros [[= <-]|[= <-]]; eauto.
  - apply validate_contest_exists_raise in Hv as [m ->]. cbn.
    intros [[= <-]|[= <-]]; eauto.
Qed.

Lemma json_endpoints_fail_with_404_or_500_witness :
  ∃ detail,
    HTTPException 404 "Contest with ID 178 not found"
    = HTTPException 404 detail
    ∨ HTTPException 404 "Contest with ID 178 not found"
      = HTTPException 500 detail.
Proof.
  apply (json_endpoints_fail_with_404_or_500 no_rows_backend 178).
  left. reflexivity.
Defined.

(** X20. The report endpoint fails in one way only: every exception
    that leaves it is an HTTP error with status 500. *)
Theorem report_fails_with_500 (db : Backend) (max_rows contest_id : Z)
    (test_date : Timestamp) (grade school_id : option Z)
    (now1 now2 now3 : Timestamp) (e : exn) :
  get_student_responses_report db max_rows contest_id test_date grade
    school_id now1 now2 now3 = Raise e →
  ∃ detail, e = HTTPException 500 detail.
Proof.
  unfold get_student_responses_report.
  match goal with
  | |- match ?body with _ => _ end = _ → _ => destruct body as [r|[]]
  end; intros [= <-]; eauto.
Qed.

Lemma report_fails_with_500_witness :
  ∃ detail,
    HTTPException 500
      "Error generating report: 404: Contest with ID 178 not found"
    = HTTPException 500 detail.
Proof.
  apply (report_fails_with_500 no_rows_backend 0 178 clock None None
           clock clock clock).
  reflexivity.
Defined.

(** X21. When the contest exists, the queries succeed and the pivot of
    the fetched records is a frame that a sheet can take, the report
    endpoint returns a download: the workbook made from that pivot (the
    two-cell workbook when no record matched the filters, not an error),
    typed as an xlsx file, and named after the contest and the time.  The
    records are within the ranges of pandas: numbers that a float holds
    exactly, test dates that a timestamp holds. *)
Theorem report_download (db : Backend) (max_rows contest_id : Z)
    (test_date : Timestamp) (grade school_id : option Z)
    (now1 now2 now3 : Timestamp) (found info : ResultSet)
    (df : list FlatRecord) :
  execute db validate_contest_query [DInt contest_id] = Ok found →
  fetched found ≠ [] →
  execute db contest_info_query [DInt contest_id] = Ok info →
  read_sql_query db (student_responses_query max_rows grade school_id)
    (student_responses_params contest_id test_date grade school_id) = Ok df →
  writable (pivot_student_data df) = true →
  Forall representable df →
  get_student_responses_report db max_rows contest_id test_date grade
    school_id now1 now2 now3
  = Ok (StreamingResponse
          match df with
          | [] => no_data_workbook contest_id
          | _ :: _ =>
              [responses_sheet (pivot_student_data df) contest_id now1;
               summary_sheet (pivot_student_data df) contest_id now2]
          end
          "application/vnd.openxmlformats-officedocument.spreadsheetml.sheet"
          [("Content-Disposition",
            "attachment; filename=student_responses_contest_"
              +:+ str_int contest_id +:+ "_" +:+ strftime_compact now3
              +:+ ".xlsx")]).
Proof.
  intros Hfound Hrow Hinfo Hdf Hsize _. unfold get_student_responses_report.
  rewrite (validate_contest_exists_found _ _ found) by done.
  rewrite bool_decide_eq_true_2 by done.
  destruct (get_contest_info_returns db contest_id info Hinfo) as [i ->].
  unfold get_student_responses. rewrite Hdf.
  cbn [mbind result_bind mret result_ret negb get_connection
       or_database_error].
  destruct df as [|r df]; [reflexivity|].
  by rewrite generate_excel_writable by auto using pivot_not_empty.
Qed.

Lemma report_download_witness :
  get_student_responses_report sample_backend 0 178
    (mkTimestamp 2024 3 7 0 0 0) None None clock clock clock
  = Ok (StreamingResponse
          [responses_sheet (pivot_student_data scenario) 178 clock;
           summary_sheet (pivot_student_data scenario) 178 clock]
          "application/vnd.openxmlformats-officedocument.spreadsheetml.sheet"
          [("Content-Disposition",
            "attachment; filename=student_responses_contest_178_20260115_080509.xlsx")]).
Proof.
  apply (report_download sample_backend 0 178 (mkTimestamp 2024 3 7 0 0 0)
           None None clock clock clock
           (mkResultSet ["value"] [[DInt 1]])
           (mkResultSet
              ["ContestCreationID"; "ExamStartDateTime"; "ExamEndDateTime"]
              [[DInt 178; DDate (mkTimestamp 2024 3 7 9 0 0);
                DDate (mkTimestamp 2024 3 8 17 0 0)]])
           scenario).
  - reflexivity.
  - discriminate.
  - reflexivity.
  - reflexivity.
  - vm_compute. reflexivity.
  - apply (bool_decide_unpack _). by vm_compute.
Defined.

(** X22. The health check never fails, and it reports "healthy" exactly
    when SELECT 1 came back with a row whose first value is 1; in every
    other case, a raised exception included, it reports "degraded". *)
Theorem health_reflects_connection (db : Backend) (now : string) :
  let h := health_check db now in
  status h = (if database_connected h then "healthy" else "degraded")
  ∧ timestamp h = now
  ∧ (database_connected h = true ↔
     ∃ rs row rest,
       execute db "SELECT 1" [] = Ok rs
       ∧ fetched rs = (DInt 1 :: row) :: rest).
Proof.
  cbn zeta. split; [done|]. split; [done|].
  unfold health_check, test_connection, get_cursor, get_connection.
  cbn [database_connected].
  destruct (execute db "SELECT 1" []) as [rs|e]; cbn.
  - unfold fetchone. destruct (fetched rs) as [|[|x row] rest] eqn:Hrows; cbn.
    + split; [done|]. intros (? & ? & ? & [= <-] & ?). congruence.
    + split; [done|]. intros (? & ? & ? & [= <-] & ?). congruence.
    + rewrite bool_decide_eq_true. split.
      * intros ->. by exists rs, row, rest.
      * intros (? & ? & ? & [= <-] & ?). congruence.
  - split; [by destruct e|]. by intros (? & ? & ? & ? & ?).
Qed.

(** X23. Whichever way of signing in is configured, the connection
    string ends by asking for a read-only connection. *)
Theorem connection_asks_read_only (s : Settings) :
  endswith (connection_string s)
    "ApplicationIntent=ReadOnly;TrustServerCertificate=yes;" = true.
Proof.
  apply endswith_suffix. unfold connection_string.
  destruct (USE_WINDOWS_AUTH s).
  - exists ("DRIVER={ODBC Driver 18 for SQL Server};"
            +:+ "SERVER=" +:+ DB_SERVER s +:+ ";"
            +:+ "DATABASE=" +:+ DB_NAME s +:+ ";"
            +:+ "Trusted_Connection=yes;").
    by rewrite !append_assoc.
  - exists ("DRIVER={ODBC Driver 18 for SQL Server};"
            +:+ "SERVER=" +:+ DB_SERVER s +:+ ";"
            +:+ "DATABASE=" +:+ DB_NAME s +:+ ";"
            +:+ "UID=" +:+ DB_USER s +:+ ";"
            +:+ "PWD=" +:+ DB_PASSWORD s +:+ ";").
    by rewrite !append_assoc.
Qed.
